(** * NovaBrief: the e-mail content normaliser of [ObtainEmlLambda]

    A shallow embedding of [src/ObtainEmlLambda/lambda_function.py]:
    [safe_decode] with its list of candidate encodings, the selection of the
    body among the parts yielded by [msg.walk()], the collection of inline
    images into the [embedded_images] dictionary, the textual substitution
    of image references and the final wrapping into an HTML skeleton.

    Python values are modelled as follows.
    - [bytes] is [list byte]; [str] is [pystr], the list of its Unicode code
      points ([N]).
    - A call that may raise returns a [pyresult]; [None] is [option]'s [None].
    - A [dict] is an association list in insertion order, updated in place.
    - A message is the tree of its parts, each with what the source reads
      from it: content type, [Content-ID], filename and decoded payload.
    - The codecs, [str.strip], [str.replace], [str.startswith] and
      [base64.b64encode] are written out; the lower case of non-ASCII code
      points and the lossy UTF-8 decoder are members of [PyRuntime], and
      every statement holds for all their values.

    The line numbers in the comments are those of [lambda_function.py]. *)

From Stdlib.Strings Require Import String Ascii Byte.
From Stdlib Require Import NArith Bool Arith Lia List.
Import ListNotations.

#[local] Set Warnings "-register-all".

(* ================================================================== *)
(** * Python values *)
(* ================================================================== *)

(** A Python [str]: its code points, in order. *)
Definition pystr := list N.

(** A Python [bytes] object. *)
Definition pybytes := list byte.

(** The code points of a literal of the source (all of them are ASCII). *)
Definition lit (s : string) : pystr :=
  map N_of_ascii (list_ascii_of_string s).

(** The exceptions that the modelled code can meet. *)
Inductive pyexn : Type :=
| AttributeError      (* a method looked up on [None] *)
| TypeError           (* [base64.b64encode(None)] *)
| UnicodeDecodeError  (* [bytes.decode] on bytes the codec rejects *)
| LookupError.        (* [bytes.decode] with an unknown codec name *)

(** The outcome of a call: a returned value or a raised exception. *)
Inductive pyresult (A : Type) : Type :=
| Returned (a : A)
| Raised (e : pyexn).

Arguments Returned {A} a.
Arguments Raised {A} e.

Definition bind {A B : Type} (r : pyresult A) (k : A -> pyresult B)
  : pyresult B :=
  match r with
  | Returned a => k a
  | Raised e => Raised e
  end.

Notation "x <- r ;; k" := (bind r (fun x => k))
  (at level 61, r at next level, right associativity).

(** Truth value of a [str] or [None] operand of [if], [not] and [or]. *)
Definition truthy (v : option pystr) : bool :=
  match v with
  | None => false
  | Some [] => false
  | Some (_ :: _) => true
  end.

(* ================================================================== *)
(** * The [str] methods used by the source *)
(* ================================================================== *)

(** [s.startswith(prefix)]. *)
Fixpoint startswith (s prefix : pystr) {struct prefix} : bool :=
  match prefix with
  | [] => true
  | p :: prefix' =>
      match s with
      | [] => false
      | c :: s' => (c =? p)%N && startswith s' prefix'
      end
  end.

(** [sub in s]: [sub] occurs in [s] at some position. *)
Fixpoint contains (s sub : pystr) {struct s} : bool :=
  startswith s sub ||
  match s with
  | [] => false
  | _ :: s' => contains s' sub
  end.

(** Membership of a code point in a set of code points given as a [str]. *)
Definition char_in (c : N) (chars : pystr) : bool :=
  existsb (N.eqb c) chars.

(** [s.lstrip(...)], [s.rstrip(...)] and [s.strip(...)] for a predicate on
    code points: the longest prefix and suffix of matching code points go. *)
Fixpoint lstrip_with (f : N -> bool) (s : pystr) : pystr :=
  match s with
  | [] => []
  | c :: s' => if f c then lstrip_with f s' else s
  end.

Definition rstrip_with (f : N -> bool) (s : pystr) : pystr :=
  rev (lstrip_with f (rev s)).

Definition strip_with (f : N -> bool) (s : pystr) : pystr :=
  rstrip_with f (lstrip_with f s).

(** [s.strip(chars)]. *)
Definition strip_chars (s chars : pystr) : pystr :=
  strip_with (fun c => char_in c chars) s.

(** [c.isspace()]: the code points that [str.strip()] removes. *)
Definition isspace (c : N) : bool :=
  ((9 <=? c) && (c <=? 13) || (28 <=? c) && (c <=? 32)
   || (c =? 133) || (c =? 160) || (c =? 5760)
   || (8192 <=? c) && (c <=? 8202)
   || (c =? 8232) || (c =? 8233) || (c =? 8239) || (c =? 8287)
   || (c =? 12288))%N.

(** [s.strip()]. *)
Definition strip (s : pystr) : pystr := strip_with isspace s.

(** Lower case of an ASCII code point. *)
Definition ascii_lower (c : N) : N :=
  if ((65 <=? c) && (c <=? 90))%N then (c + 32)%N else c.

(** What the interpreter supplies and the source neither defines nor
    constrains.
    - [unicode_lower before c after] is the lower case of the non-ASCII code
      point [c] standing between [before] and [after] (Unicode case mapping
      may give several code points and looks at the context).
    - [decode_utf8_replace] is [payload.decode('utf-8', errors='replace')];
      the source guards it with [except Exception], so it may raise. *)
Class PyRuntime : Type := {
  unicode_lower : pystr -> N -> pystr -> pystr;
  decode_utf8_replace : pybytes -> pyresult pystr
}.

Section Lower.
Context {R : PyRuntime}.

(** [s.lower()], the code points before [s] being [before]. *)
Fixpoint lower_from (before s : pystr) {struct s} : pystr :=
  match s with
  | [] => []
  | c :: s' =>
      (if (c <? 128)%N then [ascii_lower c] else unicode_lower before c s')
        ++ lower_from (before ++ [c]) s'
  end.

(** [s.lower()]. *)
Definition lower (s : pystr) : pystr := lower_from [] s.
End Lower.

(** [s.replace(old, new)] for a non-empty [old]: the occurrences of [old]
    are found from left to right without overlap; [skip] counts the code
    points of a matched occurrence still to be passed over. *)
Fixpoint replace_scan (old new : pystr) (skip : nat) (s : pystr) : pystr :=
  match s with
  | [] => []
  | c :: s' =>
      match skip with
      | S k => replace_scan old new k s'
      | O =>
          if startswith s old
          then new ++ replace_scan old new (length old - 1) s'
          else c :: replace_scan old new 0 s'
      end
  end.

(** [s.replace(old, new)]; an empty [old] matches before every code point
    and at the end. *)
Definition replace (s old new : pystr) : pystr :=
  match old with
  | [] => new ++ flat_map (fun c => c :: new) s
  | _ :: _ => replace_scan old new 0 s
  end.

(** [str(n)] for a natural number, as an f-string formats it. *)
Fixpoint digits_of_uint (d : Decimal.uint) : pystr :=
  match d with
  | Decimal.Nil => []
  | Decimal.D0 d' => 48%N :: digits_of_uint d'
  | Decimal.D1 d' => 49%N :: digits_of_uint d'
  | Decimal.D2 d' => 50%N :: digits_of_uint d'
  | Decimal.D3 d' => 51%N :: digits_of_uint d'
  | Decimal.D4 d' => 52%N :: digits_of_uint d'
  | Decimal.D5 d' => 53%N :: digits_of_uint d'
  | Decimal.D6 d' => 54%N :: digits_of_uint d'
  | Decimal.D7 d' => 55%N :: digits_of_uint d'
  | Decimal.D8 d' => 56%N :: digits_of_uint d'
  | Decimal.D9 d' => 57%N :: digits_of_uint d'
  end.

Definition str_of_nat (n : nat) : pystr := digits_of_uint (Nat.to_uint n).

(** [a == b] on [str]. *)
Fixpoint pystr_eqb (a b : pystr) {struct a} : bool :=
  match a, b with
  | [], [] => true
  | x :: a', y :: b' => (x =? y)%N && pystr_eqb a' b'
  | _, _ => false
  end.

(* ================================================================== *)
(** * Codecs: [bytes.decode(encoding)] *)
(* ================================================================== *)

(** The codec names that occur in the source. *)
Inductive encoding : Type :=
| utf_8 | utf_8_sig | cp1252 | latin_1 | iso_8859_1 | iso_8859_15 | ascii.

Definition is_continuation (n : N) : bool := ((128 <=? n) && (n <=? 191))%N.

(** Strict UTF-8: shortest forms only, no surrogates, nothing above
    U+10FFFF. [None] stands for [UnicodeDecodeError]. *)
Fixpoint utf_8_decode (bs : pybytes) : option pystr :=
  match bs with
  | [] => Some []
  | b0 :: r0 =>
      let n0 := Byte.to_N b0 in
      if (n0 <? 128)%N then option_map (cons n0) (utf_8_decode r0)
      else if ((194 <=? n0) && (n0 <=? 223))%N then
        match r0 with
        | b1 :: r1 =>
            let n1 := Byte.to_N b1 in
            if is_continuation n1
            then option_map (cons ((n0 - 192) * 64 + (n1 - 128))%N)
                            (utf_8_decode r1)
            else None
        | _ => None
        end
      else if ((224 <=? n0) && (n0 <=? 239))%N then
        match r0 with
        | b1 :: b2 :: r2 =>
            let n1 := Byte.to_N b1 in
            let n2 := Byte.to_N b2 in
            if is_continuation n1 && is_continuation n2
               && negb ((n0 =? 224) && (n1 <? 160))%N
               && negb ((n0 =? 237) && (160 <=? n1))%N
            then option_map
                   (cons ((n0 - 224) * 4096 + (n1 - 128) * 64 + (n2 - 128))%N)
                   (utf_8_decode r2)
            else None
        | _ => None
        end
      else if ((240 <=? n0) && (n0 <=? 244))%N then
        match r0 with
        | b1 :: b2 :: b3 :: r3 =>
            let n1 := Byte.to_N b1 in
            let n2 := Byte.to_N b2 in
            let n3 := Byte.to_N b3 in
            if is_continuation n1 && is_continuation n2 && is_continuation n3
               && negb ((n0 =? 240) && (n1 <? 144))%N
               && negb ((n0 =? 244) && (144 <=? n1))%N
            then option_map
                   (cons ((n0 - 240) * 262144 + (n1 - 128) * 4096
                          + (n2 - 128) * 64 + (n3 - 128))%N)
                   (utf_8_decode r3)
            else None
        | _ => None
        end
      else None
  end.

(** UTF-8 with signature: a leading byte order mark EF BB BF is dropped. *)
Definition utf_8_sig_decode (bs : pybytes) : option pystr :=
  match bs with
  | xef :: xbb :: xbf :: rest => utf_8_decode rest
  | _ => utf_8_decode bs
  end.

(** Windows-1252: bytes 81, 8D, 8F, 90 and 9D are undefined. *)
Definition cp1252_char (n : N) : option N :=
  (if (n <? 128) || (160 <=? n) then Some n else
   match n with
   | 128 => Some 8364 | 130 => Some 8218 | 131 => Some 402
   | 132 => Some 8222 | 133 => Some 8230 | 134 => Some 8224
   | 135 => Some 8225 | 136 => Some 710  | 137 => Some 8240
   | 138 => Some 352  | 139 => Some 8249 | 140 => Some 338
   | 142 => Some 381
   | 145 => Some 8216 | 146 => Some 8217 | 147 => Some 8220
   | 148 => Some 8221 | 149 => Some 8226 | 150 => Some 8211
   | 151 => Some 8212 | 152 => Some 732  | 153 => Some 8482
   | 154 => Some 353  | 155 => Some 8250 | 156 => Some 339
   | 158 => Some 382  | 159 => Some 376
   | _ => None
   end)%N.

(** ISO-8859-15: Latin-1 but for eight code points. *)
Definition iso_8859_15_char (n : N) : N :=
  (match n with
   | 164 => 8364 | 166 => 352 | 168 => 353 | 180 => 381
   | 184 => 382  | 188 => 338 | 189 => 339 | 190 => 376
   | _ => n
   end)%N.

(** A single-byte codec given by its table. *)
Fixpoint charmap_decode (table : N -> option N) (bs : pybytes)
  : option pystr :=
  match bs with
  | [] => Some []
  | b :: rest =>
      match table (Byte.to_N b) with
      | Some c => option_map (cons c) (charmap_decode table rest)
      | None => None
      end
  end.

(** Latin-1: every byte is its own code point. *)
Definition latin_1_decode (bs : pybytes) : pystr := map Byte.to_N bs.

Definition codec_decode (enc : encoding) (bs : pybytes) : option pystr :=
  match enc with
  | utf_8 => utf_8_decode bs
  | utf_8_sig => utf_8_sig_decode bs
  | cp1252 => charmap_decode cp1252_char bs
  | latin_1 | iso_8859_1 => Some (latin_1_decode bs)
  | iso_8859_15 => charmap_decode (fun n => Some (iso_8859_15_char n)) bs
  | ascii => charmap_decode (fun n => if (n <? 128)%N then Some n else None) bs
  end.

(** [payload.decode(encoding)]; [payload] may be [None], which has no
    [decode] method. *)
Definition decode (payload : option pybytes) (enc : encoding)
  : pyresult pystr :=
  match payload with
  | None => Raised AttributeError
  | Some bs =>
      match codec_decode enc bs with
      | Some s => Returned s
      | None => Raised UnicodeDecodeError
      end
  end.

(* ================================================================== *)
(** * [base64.b64encode] *)
(* ================================================================== *)

Definition b64_alphabet : pybytes :=
  list_byte_of_string
    "ABCDEFGHIJKLMNOPQRSTUVWXYZabcdefghijklmnopqrstuvwxyz0123456789+/".

(** The digit of a six-bit value; [=] is the padding. *)
Definition b64_digit (n : N) : byte := nth (N.to_nat n) b64_alphabet x3d.

Fixpoint b64encode_bytes (bs : pybytes) : pybytes :=
  match bs with
  | [] => []
  | [a] =>
      let x := Byte.to_N a in
      [b64_digit (x / 4); b64_digit ((x mod 4) * 16); x3d; x3d]%N
  | [a; b] =>
      let x := Byte.to_N a in
      let y := Byte.to_N b in
      [b64_digit (x / 4); b64_digit ((x mod 4) * 16 + y / 16);
       b64_digit ((y mod 16) * 4); x3d]%N
  | a :: b :: c :: rest =>
      let x := Byte.to_N a in
      let y := Byte.to_N b in
      let z := Byte.to_N c in
      [b64_digit (x / 4); b64_digit ((x mod 4) * 16 + y / 16);
       b64_digit ((y mod 16) * 4 + z / 64); b64_digit (z mod 64)]%N
        ++ b64encode_bytes rest
  end.

(** [base64.b64encode(data)]; [None] is not bytes-like. *)
Definition b64encode (data : option pybytes) : pyresult pybytes :=
  match data with
  | None => Raised TypeError
  | Some bs => Returned (b64encode_bytes bs)
  end.

(* ================================================================== *)
(** * Messages *)
(* ================================================================== *)

(** The parser makes a part a container only when its main content type is
    [multipart] or [message]. *)
Inductive container_maintype : Type := multipart | message.

(** What [Message.get] returns for a header that is there: a [str], or an
    [email.header.Header] object when the header holds a raw 8-bit byte. *)
Inductive header_value : Type :=
| HeaderStr (value : pystr)
| HeaderObject (raw : pybytes).

(** An [email.message.Message] as the source reads it: a leaf carries the
    content type returned by [get_content_type()], its [Content-ID] header,
    the result of [get_filename()] and the bytes returned by
    [get_payload(decode=True)]; a container carries its sub-parts. *)
Inductive Message : Type :=
| Leaf (content_type : pystr) (content_id : option header_value)
       (filename : option pystr) (payload : pybytes)
| Container (maintype : container_maintype) (subtype : pystr)
            (subparts : list Message).

(** [msg.walk()]: the message itself, then the walk of each sub-part. *)
Fixpoint walk (msg : Message) : list Message :=
  msg ::
  match msg with
  | Leaf _ _ _ _ => []
  | Container _ _ subparts => flat_map walk subparts
  end.

Definition maintype_name (m : container_maintype) : pystr :=
  match m with
  | multipart => lit "multipart"
  | message => lit "message"
  end.

(** [part.get_content_type()]. *)
Definition get_content_type (part : Message) : pystr :=
  match part with
  | Leaf content_type _ _ _ => content_type
  | Container m subtype _ => maintype_name m ++ lit "/" ++ subtype
  end.

(** [ctype.split('/')[0]]. *)
Fixpoint before_slash (ctype : pystr) : pystr :=
  match ctype with
  | [] => []
  | c :: rest => if (c =? 47)%N then [] else c :: before_slash rest
  end.

(** [part.get_content_maintype()]. *)
Definition get_content_maintype (part : Message) : pystr :=
  before_slash (get_content_type part).

(** [part.get('Content-ID', '')]. *)
Definition get_content_id (part : Message) : header_value :=
  match part with
  | Leaf _ (Some value) _ _ => value
  | _ => HeaderStr []
  end.

(** [value.strip(chars)] on what [Message.get] returned: a [Header] object
    has no method [strip]. *)
Definition header_strip (value : header_value) (chars : pystr)
  : pyresult pystr :=
  match value with
  | HeaderStr s => Returned (strip_chars s chars)
  | HeaderObject _ => Raised AttributeError
  end.

(** [part.get_filename()]. *)
Definition get_filename (part : Message) : option pystr :=
  match part with
  | Leaf _ _ filename _ => filename
  | Container _ _ _ => None
  end.

(** [part.get_payload(decode=True)]: [None] for a container. *)
Definition get_payload (part : Message) : option pybytes :=
  match part with
  | Leaf _ _ _ payload => Some payload
  | Container _ _ _ => None
  end.

(* ================================================================== *)
(** * [embedded_images]: a dictionary in insertion order *)
(* ================================================================== *)

(** The value stored for an image: the keys ['data'], ['mime_type'] and
    ['filename'] of the source. *)
Record image_info : Type := {
  data : pystr;
  mime_type : pystr;
  info_filename : pystr
}.

Definition images_dict := list (pystr * image_info).


(** [d[key] = value]: an existing key keeps its place, a new one goes last. *)
Fixpoint dict_set (d : images_dict) (key : pystr) (value : image_info)
  : images_dict :=
  match d with
  | [] => [(key, value)]
  | (k, v) :: d' =>
      if pystr_eqb k key then (k, value) :: d'
      else (k, v) :: dict_set d' key value
  end.

(* ================================================================== *)
(** * [lambda_function.py] *)
(* ================================================================== *)

(** The literal pieces of the two f-string templates. *)
Definition nl : pystr := [10%N].
Definition dquote : pystr := [34%N].
Definition spaces (n : nat) : pystr := repeat 32%N n.
Definition line (indent : nat) (text : string) : pystr :=
  spaces indent ++ lit text ++ nl.

(** Lines 27-32. *)
Definition encodings : list encoding :=
  [utf_8; utf_8_sig; cp1252; latin_1; iso_8859_1; iso_8859_15; ascii].

(** Which [return] of [safe_decode] produced the result. *)
Inductive decode_path : Type :=
| ByCandidate (enc : encoding)   (* line 41, inside the loop *)
| ByLossyUtf8                    (* line 47 *)
| ByForcedLatin1.                (* line 50 *)

(** Lines 73-83: the document built around a plain text. *)
Definition plain_text_document (plain_text : pystr) : pystr :=
  nl ++ line 16 "<!DOCTYPE html>" ++ line 16 "<html>" ++ line 16 "<head>"
     ++ spaces 20 ++ lit "<meta charset=" ++ dquote ++ lit "UTF-8" ++ dquote
     ++ lit ">" ++ nl
     ++ line 16 "</head>" ++ line 16 "<body>"
     ++ spaces 20 ++ lit "<pre>" ++ plain_text ++ lit "</pre>" ++ nl
     ++ line 16 "</body>" ++ line 16 "</html>" ++ spaces 16.

(** Lines 119-129: the text before and after [{html_body}]. *)
Definition skeleton_head : pystr :=
  Eval cbv in
    nl ++ line 8 "<!DOCTYPE html>" ++ line 8 "<html>" ++ line 8 "<head>"
       ++ spaces 12 ++ lit "<meta charset=" ++ dquote ++ lit "UTF-8" ++ dquote
       ++ lit ">" ++ nl
       ++ line 8 "</head>" ++ line 8 "<body>" ++ spaces 12.

Definition skeleton_tail : pystr :=
  Eval cbv in nl ++ line 8 "</body>" ++ line 8 "</html>" ++ spaces 8.

Definition html_skeleton (html_body : pystr) : pystr :=
  skeleton_head ++ html_body ++ skeleton_tail.

(** Line 113: [f'data:{img_info["mime_type"]};base64,{img_info["data"]}']. *)
Definition data_uri (img_info : image_info) : pystr :=
  lit "data:" ++ mime_type img_info ++ lit ";base64," ++ data img_info.

(** Line 100: [content_id or filename or f'image_{len(embedded_images)}']. *)
Definition img_key_of (content_id : pystr) (filename : option pystr)
           (embedded_images : images_dict) : pystr :=
  if truthy (Some content_id) then content_id
  else if truthy filename
       then match filename with Some f => f | None => [] end
       else lit "image_" ++ str_of_nat (List.length embedded_images).

(** Line 106: [filename or img_key]. *)
Definition filename_or (filename : option pystr) (img_key : pystr) : pystr :=
  if truthy filename
  then match filename with Some f => f | None => [] end
  else img_key.

(** Lines 112-115: the two replacements made for one image. *)
Definition substitute_image (html_body : pystr) (item : pystr * image_info)
  : pystr :=
  let (key, img_info) := item in
  let html_body :=
    replace html_body (lit "cid:" ++ key) (data_uri img_info) in
  replace html_body key (data_uri img_info).

(** Lines 110-115: [for key, img_info in embedded_images.items()]. *)
Definition substitute_images (html_body : pystr)
           (embedded_images : images_dict) : pystr :=
  fold_left substitute_image embedded_images html_body.

(** Lines 14-17; [parseaddr] is [email.utils.parseaddr], which the source
    imports and which returns the pair of the name and the address. *)
Definition extract_email (parseaddr : pystr -> pystr * pystr)
           (from_header : pystr) : pystr :=
  let (name, email_address) := parseaddr from_header in
  email_address.

Section Lambda.
Context {R : PyRuntime}.

(** Lines 36-43: the loop over the candidate encodings. [None] when the
    loop ends without a [return]; an exception other than
    [UnicodeDecodeError] and [LookupError] is not caught. *)
Fixpoint try_encodings (payload : option pybytes)
         (encodings_to_try : list encoding)
  : pyresult (option (encoding * pystr)) :=
  match encodings_to_try with
  | [] => Returned None
  | enc :: rest =>
      match decode payload enc with
      | Returned decoded => Returned (Some (enc, decoded))
      | Raised UnicodeDecodeError | Raised LookupError =>
          try_encodings payload rest
      | Raised e => Raised e
      end
  end.

(** Lines 35-50, with the [return] that was taken. *)
Definition safe_decode_path (payload : option pybytes)
           (encodings_to_try : list encoding)
  : pyresult (decode_path * pystr) :=
  found <- try_encodings payload encodings_to_try ;;
  match found with
  | Some (enc, decoded) => Returned (ByCandidate enc, decoded)
  | None =>
      match
        match payload with
        | None => Raised AttributeError
        | Some bs => decode_utf8_replace bs
        end
      with
      | Returned decoded => Returned (ByLossyUtf8, decoded)
      | Raised _ =>
          decoded <- decode payload latin_1 ;;
          Returned (ByForcedLatin1, decoded)
      end
  end.

(** Lines 35-50: [safe_decode(payload, encodings_to_try)]. *)
Definition safe_decode (payload : option pybytes)
           (encodings_to_try : list encoding) : pyresult pystr :=
  r <- safe_decode_path payload encodings_to_try ;; Returned (snd r).

(** Lines 53-60: the first [text/html] part, decoded. *)
Fixpoint find_html (parts : list Message) : pyresult (option pystr) :=
  match parts with
  | [] => Returned None
  | part :: rest =>
      if pystr_eqb (get_content_type part) (lit "text/html")
      then html_body <- safe_decode (get_payload part) encodings ;;
           Returned (Some html_body)
      else find_html rest
  end.

(** Lines 64-84: the first [text/plain] part, decoded and put in a
    document; [html_body] keeps its value when there is none. *)
Fixpoint find_plain (parts : list Message) (html_body : option pystr)
  : pyresult (option pystr) :=
  match parts with
  | [] => Returned html_body
  | part :: rest =>
      if pystr_eqb (get_content_type part) (lit "text/plain")
      then plain_text <- safe_decode (get_payload part) encodings ;;
           Returned (Some (plain_text_document plain_text))
      else find_plain rest html_body
  end.

(** Lines 52-84: the body and whether the second loop was entered. *)
Definition select_body (parts : list Message)
  : pyresult (option pystr * bool) :=
  html_body <- find_html parts ;;
  if negb (truthy html_body)
  then html_body <- find_plain parts html_body ;; Returned (html_body, true)
  else Returned (html_body, false).

(** Lines 89-107: the body of the loop over the parts. *)
Definition collect_image (embedded_images : images_dict) (part : Message)
  : pyresult images_dict :=
  if pystr_eqb (get_content_maintype part) (lit "image")
  then
    content_id <- header_strip (get_content_id part) (lit "<>") ;;
    let filename := get_filename part in
    let image_data := get_payload part in
    encoded <- b64encode image_data ;;
    image_base64 <- decode (Some encoded) utf_8 ;;
    let mime_type := get_content_type part in
    let img_key := img_key_of content_id filename embedded_images in
    Returned
      (dict_set embedded_images img_key
         {| data := image_base64;
            mime_type := mime_type;
            info_filename := filename_or filename img_key |})
  else Returned embedded_images.

(** Lines 88-107: [for part in msg.walk()]. *)
Fixpoint collect_images (embedded_images : images_dict)
         (parts : list Message) : pyresult images_dict :=
  match parts with
  | [] => Returned embedded_images
  | part :: rest =>
      embedded_images <- collect_image embedded_images part ;;
      collect_images embedded_images rest
  end.

(** Line 118: one of the two prefixes is there. *)
Definition has_html_opening (html_body : pystr) : bool :=
  startswith (lower (strip html_body)) (lit "<!doctype")
  || startswith (lower (strip html_body)) (lit "<html").

(** Lines 118-129 on a [str]. *)
Definition finalize (html_body : pystr) : pystr :=
  if negb (startswith (lower (strip html_body)) (lit "<!doctype"))
     && negb (startswith (lower (strip html_body)) (lit "<html"))
  then html_skeleton html_body
  else html_body.

(** Lines 19-131. *)
Definition extract_html_with_embedded_images (msg : Message)
  : pyresult (option pystr) :=
  selected <- select_body (walk msg) ;;
  let html_body := fst selected in
  html_body <-
    (if truthy html_body
     then embedded_images <- collect_images [] (walk msg) ;;
          Returned
            (option_map
               (fun body => substitute_images body embedded_images)
               html_body)
     else Returned html_body) ;;
  match html_body with
  | None => Raised AttributeError   (* [None.strip] *)
  | Some body => Returned (Some (finalize body))
  end.
End Lambda.

(* ================================================================== *)
(** * Vocabulary of the statements *)
(* ================================================================== *)

(** The non-empty suffixes of a text. *)
Fixpoint tails (s : pystr) : list pystr :=
  match s with
  | [] => []
  | _ :: s' => s :: tails s'
  end.

(** One of the two texts is a prefix of the other. *)
Definition meets (a b : pystr) : bool := startswith a b || startswith b a.

(** No occurrence of [old] in any text can share a position with an
    occurrence of [u]: no end of [old] runs into the start of [u], [old]
    does not cover [u], and [old] neither lies in [u] nor starts in it. *)
Definition cannot_overlap (old u : pystr) : bool :=
  forallb (fun o => negb (meets u o)) (tails old)
  && forallb (fun t => negb (meets t old)) (tails u).

(** The searched texts of every image ([cid:<key>] and [<key>]) cannot
    overlap the data URI of any image. *)
Definition non_interfering (embedded_images : images_dict) : bool :=
  forallb
    (fun item =>
       forallb
         (fun other =>
            cannot_overlap (fst item) (data_uri (snd other))
            && cannot_overlap (lit "cid:" ++ fst item) (data_uri (snd other)))
         embedded_images)
    embedded_images.

(** The text of [base64.b64encode(payload).decode('utf-8')]. *)
Definition b64_text (payload : pybytes) : pystr :=
  latin_1_decode (b64encode_bytes payload).

(** The bytes of an ASCII literal. *)
Definition bytes_of (s : string) : pybytes := list_byte_of_string s.

(** A runtime to evaluate the functions on ASCII texts, where the two
    members are not consulted: [lower] leaves other code points alone and
    the lossy decoder gives U+FFFD for every byte above 127. *)
Definition ascii_runtime : PyRuntime := {|
  unicode_lower := fun _ c _ => [c];
  decode_utf8_replace := fun bs =>
    Returned (map (fun b => if (Byte.to_N b <? 128)%N
                            then Byte.to_N b else 65533%N) bs)
|}.

(** A byte below 128. *)
Definition is_ascii_byte (b : byte) : bool := (Byte.to_N b <? 128)%N.

(** The keys of a collected dictionary, in insertion order. *)
Definition collected_keys (r : pyresult images_dict) : list pystr :=
  match r with
  | Returned d => map fst d
  | Raised _ => []
  end.

(** The key of an image part in the words of the specification: the
    stripped content-id when it is present, else the filename when it is
    present, else [image_<n>] for the [n] images met before; present is
    read as there and not empty, as the claim says for the content-id. *)
Definition spec_img_key (part : Message) (images_before : nat) : pystr :=
  match get_content_id part with
  | HeaderStr value =>
      match strip_chars value (lit "<>"), get_filename part with
      | c :: content_id, _ => c :: content_id
      | [], Some (c :: f) => c :: f
      | [], _ => lit "image_" ++ str_of_nat images_before
      end
  | HeaderObject _ =>
      match get_filename part with
      | Some (c :: f) => c :: f
      | _ => lit "image_" ++ str_of_nat images_before
      end
  end.

(** The number of image parts among [parts]. *)
Definition count_images (parts : list Message) : nat :=
  List.length
    (filter (fun p => pystr_eqb (get_content_maintype p) (lit "image")) parts).

(** An image part whose [Content-ID] comes back as a [Header] object. *)
Definition header_image (part : Message) : bool :=
  pystr_eqb (get_content_maintype part) (lit "image")
  && match get_content_id part with
     | HeaderObject _ => true
     | HeaderStr _ => false
     end.

(** Some part is such an image. *)
Definition has_header_image (parts : list Message) : bool :=
  existsb header_image parts.

(** ** Sample messages *)

Definition png (content_id filename : option pystr) : Message :=
  Leaf (lit "image/png") (option_map HeaderStr content_id) filename
       (bytes_of "ABC").

(** An HTML part that shows the image of content-id [logo], and the
    image. *)
Definition part_html_logo : Message :=
  Leaf (lit "text/html") None None (bytes_of "<img src=cid:logo>").

Definition part_png_logo : Message :=
  png (Some (lit "<logo>")) (Some (lit "logo.png")).

Definition msg_logo : Message :=
  Container multipart (lit "related") [part_html_logo; part_png_logo].

(** What is collected for [part_png_logo]. *)
Definition info_logo : image_info :=
  {| data := lit "QUJD"; mime_type := lit "image/png";
     info_filename := lit "logo.png" |}.

(** Only an attachment. *)
Definition msg_attachment_only : Message :=
  Leaf (lit "application/pdf") None (Some (lit "report.pdf"))
       (bytes_of "%PDF-1.4").

(** Only a plain text. *)
Definition msg_plain_hello : Message :=
  Leaf (lit "text/plain") None None (bytes_of "Hello").

(** An HTML part without markup of its own. *)
Definition msg_paragraph : Message :=
  Leaf (lit "text/html") None None (bytes_of "<p>hi</p>").

(** An HTML part that begins with a tag whose name only starts like
    [html]. *)
Definition msg_htmlx : Message :=
  Leaf (lit "text/html") None None (bytes_of "<htmlx>hi</htmlx>").

(** An empty HTML alternative before a plain text. *)
Definition msg_empty_html : Message :=
  Container multipart (lit "alternative")
    [Leaf (lit "text/html") None None [];
     Leaf (lit "text/plain") None None (bytes_of "Hello")].

(** An image that the body does not mention. *)
Definition msg_unreferenced : Message :=
  Container multipart (lit "mixed")
    [Leaf (lit "text/html") None None (bytes_of "<p>hi</p>");
     png (Some (lit "<logo>")) None].

(** A key that is the beginning of every data URI. *)
Definition msg_key_da : Message :=
  Container multipart (lit "related")
    [Leaf (lit "text/html") None None (bytes_of "cid:cid:da");
     png (Some (lit "<da>")) None].

(** An image whose filename parameter is there and empty. *)
Definition msg_empty_filename : Message :=
  Container multipart (lit "mixed")
    [Leaf (lit "text/html") None None (bytes_of "<p>hi</p>");
     png None (Some [])].


(** An image whose [Content-ID] holds the byte 0xE9, which [Message.get]
    hands back as a [Header] object. *)
Definition part_png_header : Message :=
  Leaf (lit "image/png") (Some (HeaderObject [x3c; xe9; x3e])) None
       (bytes_of "ABC").

Definition msg_header_cid : Message :=
  Container multipart (lit "related")
    [Leaf (lit "text/html") None None (bytes_of "<p>hi</p>");
     part_png_header].

(* ================================================================== *)
(** * [lambda_handler] of [lambda_function.py] *)
(* ================================================================== *)

(** The exceptions met outside the extraction. *)
Inductive run_exn : Type :=
| CoreError (e : pyexn)            (* raised by the code modelled above *)
| KeyError (name : string)         (* [os.environ[name]], [name] not set *)
| UnboundLocalError (name : string) (* a local read before any assignment *)
| UnicodeEncodeError               (* a text that its codec cannot encode *)
| CollaboratorError (message : pystr). (* raised by boto3 or a library *)

(** The outcome of a call of a handler or of one of its helpers. *)
Inductive run (A : Type) : Type :=
| Done (a : A)
| Failed (e : run_exn).

Arguments Done {A} a.
Arguments Failed {A} e.

Definition run_bind {A B : Type} (r : run A) (k : A -> run B) : run B :=
  match r with
  | Done a => k a
  | Failed e => Failed e
  end.

Notation "x <-- r ;; k" := (run_bind r (fun x => k))
  (at level 61, r at next level, right associativity).

(** A call of the code modelled above, made from a handler. *)
Definition of_core {A : Type} (r : pyresult A) : run A :=
  match r with
  | Returned a => Done a
  | Raised e => Failed (CoreError e)
  end.

(** [os.environ[name]]. *)
Definition environ_get (environ : string -> option pystr) (name : string)
  : run pystr :=
  match environ name with
  | Some value => Done value
  | None => Failed (KeyError name)
  end.

(** What the handler reads of a non-empty event: the key and the bucket of
    [event["Records"][0]["s3"]]. *)
Record s3_record : Type := {
  s3_object_key : pystr;
  s3_bucket_name : pystr
}.

(** The dictionary that the handler returns. *)
Record response : Type := {
  statusCode : nat;
  body : pystr
}.

(** What the handler calls and does not define.
    - [unquote_plus] is [urllib.parse.unquote_plus].
    - [get_object bucket key] is the bytes read from the body of
      [s3.get_object(Bucket=bucket, Key=key)].
    - [message_from_bytes] is [email.message_from_bytes] and [header_from]
      the [msg['From']] of the parsed message, [None] without such a header.
    - [parseaddr] is [email.utils.parseaddr] on a string and
      [parseaddr_none] its outcome on [None].
    - [strftime_now] is [datetime.now().strftime("%Y-%b-%d %H:%M:%S")].
    - [environ] is [os.environ].
    - [put_object bucket key body] is [None] when [s3.put_object] returns
      and [str(e)] of its exception otherwise. *)
Class Collaborators : Type := {
  unquote_plus : pystr -> pystr;
  get_object : pystr -> pystr -> run pybytes;
  message_from_bytes : pybytes -> Message;
  header_from : pybytes -> option pystr;
  parseaddr : pystr -> pystr * pystr;
  parseaddr_none : run (pystr * pystr);
  strftime_now : pystr;
  environ : string -> option pystr;
  put_object : pystr -> pystr -> pystr -> option pystr
}.

Section Handler.
Context {R : PyRuntime} {W : Collaborators}.

(** Line 157: [extract_email(msg['From'])]. *)
Definition email_from_of (from_header : option pystr) : run pystr :=
  match from_header with
  | Some h => Done (extract_email parseaddr h)
  | None => p <-- parseaddr_none ;; Done (snd p)
  end.

(** Lines 133-200; [None] is an event that is empty or [None], and the
    result [None] is the end of the function without a [return]. *)
Definition lambda_handler (event : option s3_record)
  : run (option response) :=
  match event with
  | None => Done None
  | Some file_obj =>
      let filename := s3_object_key file_obj in
      let bucket_name := s3_bucket_name file_obj in
      let file_key_original := unquote_plus filename in
      raw <-- get_object bucket_name file_key_original ;;
      let msg := message_from_bytes raw in
      email_from <-- email_from_of (header_from raw) ;;
      html_body <-- of_core (extract_html_with_embedded_images msg) ;;
      if truthy html_body
      then
        let timestamp := strftime_now in
        target_bucket <-- environ_get environ "target_bucket" ;;
        let s3_path := email_from ++ lit "/" ++ timestamp ++ lit ".html" in
        match
          put_object target_bucket s3_path
            (match html_body with Some document => document | None => [] end)
        with
        | None =>
            Done (Some {| statusCode := 200;
                          body := lit "HTML body processed successfully." |})
        | Some error =>
            Done (Some {| statusCode := 500;
                          body := lit "Error processing HTML body: " ++ error |})
        end
      else
        Done (Some {| statusCode := 404;
                      body := lit "No HTML body found in the email." |})
  end.
End Handler.

(* ================================================================== *)
(** * [SQS-Bitacoras/SQS-Bitacoras.py] *)
(* ================================================================== *)

(** Line 33. *)
Definition allowed_extensions : list pystr :=
  [lit "docx"; lit "csv"; lit "html"; lit "txt"; lit "pdf"; lit "md";
   lit "doc"; lit "xlsx"; lit "xls"].

(** [s.split(sep)] for a separator of one code point: the pieces between
    the separators, one more than there are separators. *)
Fixpoint split_char (sep : N) (s : pystr) : list pystr :=
  match s with
  | [] => [[]]
  | c :: s' =>
      if (c =? sep)%N then [] :: split_char sep s'
      else
        match split_char sep s' with
        | piece :: pieces => (c :: piece) :: pieces
        | [] => [[c]]
        end
  end.

(** Line 129: [file_key_original.split('.')[-1]]. *)
Definition extension_of (file_key_original : pystr) : pystr :=
  last (split_char 46 file_key_original) [].

(** [s.endswith(suffix)]. *)
Definition endswith (s suffix : pystr) : bool :=
  startswith (rev s) (rev suffix).

(** What reading a file opened in text mode does to the ends of lines: a
    carriage return, with the line feed after it if there is one, becomes a
    line feed. *)
Fixpoint universal_newlines (s : pystr) : pystr :=
  match s with
  | [] => []
  | c :: rest =>
      if (c =? 13)%N
      then 10%N ::
           match rest with
           | d :: rest' =>
               if (d =? 10)%N then universal_newlines rest'
               else universal_newlines rest
           | [] => []
           end
      else c :: universal_newlines rest
  end.

(** The message handed to [smtplib]: its four headers and the HTML text
    attached to it. *)
Record mail : Type := {
  mail_from : pystr;
  mail_to : pystr;
  mail_cc : pystr;
  mail_subject : pystr;
  mail_html : pystr
}.

(** Lines 88-100 of [send_email]. *)
Definition summary_document (summary html_content : pystr) : pystr :=
  nl ++ line 4 "<html>" ++ line 4 "<body>" ++ spaces 4 ++ nl
     ++ line 4 "<h3>Contenido del resumen:</h3>"
     ++ spaces 4 ++ lit "<pre style=" ++ dquote
     ++ lit "white-space: pre-wrap; word-wrap: break-word; "
     ++ lit "font-family: Arial, sans-serif;" ++ dquote ++ lit ">"
     ++ summary ++ lit "</pre>" ++ nl
     ++ spaces 4 ++ nl
     ++ spaces 4 ++ lit "<h3>Contenido original del correo electr"
     ++ [243%N] ++ lit "nico:</h3>" ++ nl
     ++ spaces 4 ++ html_content ++ nl
     ++ spaces 4 ++ nl ++ line 4 "</body>" ++ line 4 "</html>" ++ spaces 4.

(** A code point of the surrogate range U+D800..U+DFFF, which UTF-8 does
    not encode. *)
Definition is_surrogate (c : N) : bool := (55296 <=? c)%N && (c <=? 57343)%N.

Definition has_surrogate (s : pystr) : bool := existsb is_surrogate s.

(** [MIMEText(text, 'html')]: the text is encoded, in UTF-8 when it is not
    ASCII, which raises [UnicodeEncodeError] on a surrogate. The result is
    the text that the part carries. *)
Definition MIMEText (text : pystr) : run pystr :=
  if has_surrogate text then Failed UnicodeEncodeError else Done text.

Section Bitacoras.
Context {R : PyRuntime}.

(** Line 133: [extension.lower() in allowed_extensions]; the source takes
    the branch of the refusal when this is false. *)
Definition extension_allowed (extension : pystr) : bool :=
  existsb (fun allowed => pystr_eqb allowed (lower extension))
          allowed_extensions.

(** Lines 63-69: the file is opened and read once for each candidate, until
    one decodes it. [opened] is the outcome of opening the file and reading
    its bytes; the result [None] is [html_content] without a value. Only
    [UnicodeDecodeError] is caught here. *)
Fixpoint read_with_encodings (opened : run pybytes)
         (encodings_to_try : list encoding) : run (option pystr) :=
  match encodings_to_try with
  | [] => Done None
  | enc :: rest =>
      content <-- opened ;;
      match codec_decode enc content with
      | Some text => Done (Some (universal_newlines text))
      | None => read_with_encodings opened rest
      end
  end.

(** Lines 54-78: the content of an HTML file, and the empty string when
    anything is raised on the way. *)
Definition read_html_content (opened : run pybytes) : pystr :=
  match
    html_content <-- read_with_encodings opened encodings ;;
    match html_content with
    | None => Failed (UnboundLocalError "html_content")
    | Some text =>
        if negb (truthy (Some text))
        then content <-- opened ;; of_core (decode_utf8_replace content)
        else Done text
    end
  with
  | Done text => text
  | Failed _ => []
  end.

(** Lines 40-113. [open_file path] is the outcome of opening the file at
    [path] and reading its bytes. The result is the message with which the
    SMTP session of lines 106-113 is entered; what happens in that session
    is logged and changes nothing of the result. *)
Definition send_email (environ : string -> option pystr)
           (open_file : option pystr -> run pybytes)
           (recipient_email : pystr) (temp_file_path : option pystr)
           (bucket_key summary : pystr) : run mail :=
  smtp_server <-- environ_get environ "smtp_server" ;;
  smtp_port <-- environ_get environ "smtp_port" ;;
  smtp_user <-- environ_get environ "smtp_user" ;;
  smtp_password <-- environ_get environ "smtp_password" ;;
  sender_name <-- environ_get environ "sender_name" ;;
  cc_email <-- environ_get environ "cc_email" ;;
  let html_content :=
    if endswith (lower bucket_key) (lit ".html")
    then Some (read_html_content (open_file temp_file_path))
    else None in
  match html_content with
  | None => Failed (UnboundLocalError "html_content")
  | Some html_content =>
      let html_body := summary_document summary html_content in
      html_part <-- MIMEText html_body ;;
      Done {| mail_from := sender_name ++ lit " <" ++ smtp_user ++ lit ">";
              mail_to := recipient_email;
              mail_cc := cc_email;
              mail_subject := lit "Resumen de Documento Procesado";
              mail_html := html_part |}
  end.
End Bitacoras.

(** ** Sample collaborators *)

(** Collaborators that hand one stored message to the handler and accept
    what it stores. *)
Definition sample_collaborators (msg : Message) : Collaborators := {|
  unquote_plus := fun key => key;
  get_object := fun _ _ => Done [];
  message_from_bytes := fun _ => msg;
  header_from := fun _ => Some (lit "jane@example.com");
  parseaddr := fun h => ([], h);
  parseaddr_none := Done ([], []);
  strftime_now := lit "2025-Jan-01 00:00:00";
  environ := fun name =>
    if String.eqb name "target_bucket" then Some (lit "out") else None;
  put_object := fun _ _ _ => None
|}.

Definition sample_event : s3_record :=
  {| s3_object_key := lit "mail.eml"; s3_bucket_name := lit "in" |}.

(** An environment with the six variables of [send_email]. *)
Definition sample_environ (name : string) : option pystr :=
  Some (lit "value").

(* ================================================================== *)
(** * Vocabulary of the further statements *)
(* ================================================================== *)

(** A message has a part that can become the body. *)
Definition has_text_part (msg : Message) : bool :=
  existsb (fun part =>
             pystr_eqb (get_content_type part) (lit "text/html")
             || pystr_eqb (get_content_type part) (lit "text/plain"))
          (walk msg).


(** An entry of the dictionary that comes from an image part of [parts]. *)
Definition entry_of_image (parts : list Message)
           (item : pystr * image_info) : Prop :=
  fst item <> []
  /\ info_filename (snd item) <> []
  /\ exists part payload,
      In part parts
      /\ pystr_eqb (get_content_maintype part) (lit "image") = true
      /\ get_payload part = Some payload
      /\ data (snd item) = b64_text payload
      /\ mime_type (snd item) = get_content_type part.

(** The six variables that [send_email] reads are set. *)
Definition smtp_environ_set (environ : string -> option pystr) : bool :=
  forallb (fun name => match environ name with Some _ => true | None => false end)
          ["smtp_server"; "smtp_port"; "smtp_user"; "smtp_password";
           "sender_name"; "cc_email"]%string.

(** All code points are ASCII. *)
Definition is_ascii_text (s : pystr) : bool := forallb (fun c => c <? 128)%N s.

(* ================================================================== *)
(** * Texts: prefixes and occurrences *)
(* ================================================================== *)

Lemma startswith_nil s : startswith s [] = true.
Proof. reflexivity. Qed.

Lemma startswith_app p r : startswith (p ++ r) p = true.
Proof.
  induction p as [|c p IH]; simpl; [reflexivity|].
  now rewrite N.eqb_refl, IH.
Qed.

Lemma startswith_split s p :
  startswith s p = true -> s = p ++ skipn (List.length p) s.
Proof.
  revert s; induction p as [|c p IH]; intros s H; simpl in *.
  - reflexivity.
  - destruct s as [|d s]; [discriminate|].
    apply andb_true_iff in H as [Hc Hp].
    apply N.eqb_eq in Hc; subst d.
    simpl. f_equal. now apply IH.
Qed.

Lemma startswith_app_l g x p :
  startswith g p = true -> startswith (g ++ x) p = true.
Proof.
  intros H. rewrite (startswith_split _ _ H), <- app_assoc.
  apply startswith_app.
Qed.

(** A prefix of [u ++ b] is a prefix of [u] or continues a whole [u]. *)
Lemma startswith_app_cases u b p :
  startswith (u ++ b) p = true ->
  startswith u p = true \/ startswith p u = true.
Proof.
  revert u; induction p as [|c p IH]; intros u H.
  - left; reflexivity.
  - destruct u as [|d u]; [right; reflexivity|].
    simpl in *. apply andb_true_iff in H as [Hc Hp].
    rewrite Hc. apply N.eqb_eq in Hc; subst d. rewrite N.eqb_refl. simpl.
    now apply IH.
Qed.

Lemma In_tails_cons t c s : In t (tails s) -> In t (tails (c :: s)).
Proof. intros H; right; exact H. Qed.

Lemma In_tails_self c s : In (c :: s) (tails (c :: s)).
Proof. left; reflexivity. Qed.

(** A match that begins in [a] and would run into [u] is excluded, so
    only [a] decides. *)
Lemma startswith_before a u b old :
  (forall o, In o (tails old) -> startswith (u ++ b) o = false) ->
  startswith (a ++ u ++ b) old = startswith a old.
Proof.
  revert a; induction old as [|o old IH]; intros a H.
  - reflexivity.
  - destruct a as [|c a].
    + simpl app. rewrite (H _ (In_tails_self o old)). reflexivity.
    + simpl. f_equal. apply IH. intros o' Ho'. apply H. now right.
Qed.

Lemma cannot_overlap_before old u b :
  cannot_overlap old u = true ->
  forall o, In o (tails old) -> startswith (u ++ b) o = false.
Proof.
  unfold cannot_overlap; intros H o Ho.
  apply andb_true_iff in H as [HA _].
  rewrite forallb_forall in HA. specialize (HA o Ho).
  apply negb_true_iff in HA. unfold meets in HA.
  apply orb_false_iff in HA as [H1 H2].
  destruct (startswith (u ++ b) o) eqn:E; [|reflexivity].
  apply startswith_app_cases in E as [E|E]; congruence.
Qed.

Lemma cannot_overlap_inside old u b :
  cannot_overlap old u = true ->
  forall t, In t (tails u) -> startswith (t ++ b) old = false.
Proof.
  unfold cannot_overlap; intros H t Ht.
  apply andb_true_iff in H as [_ HB].
  rewrite forallb_forall in HB. specialize (HB t Ht).
  apply negb_true_iff in HB. unfold meets in HB.
  apply orb_false_iff in HB as [H1 H2].
  destruct (startswith (t ++ b) old) eqn:E; [|reflexivity].
  apply startswith_app_cases in E as [E|E]; congruence.
Qed.

Lemma contains_nil_l k : k <> [] -> contains [] k = false.
Proof. destruct k; [congruence|reflexivity]. Qed.

Lemma contains_cons c s k :
  contains (c :: s) k = startswith (c :: s) k || contains s k.
Proof. reflexivity. Qed.

Lemma contains_app_mid a p b : contains (a ++ p ++ b) p = true.
Proof.
  induction a as [|c a IH].
  - simpl app. destruct (p ++ b) eqn:E; simpl.
    + destruct p; [reflexivity|discriminate].
    + rewrite <- E, startswith_app. reflexivity.
  - simpl app. rewrite contains_cons, IH. apply orb_true_r.
Qed.

Lemma contains_split s p :
  contains s p = true -> exists a b, s = a ++ p ++ b.
Proof.
  induction s as [|c s IH]; simpl; intros H.
  - rewrite orb_false_r in H. apply startswith_split in H.
    exists [], (skipn (List.length p) []). exact H.
  - apply orb_true_iff in H as [H|H].
    + apply startswith_split in H.
      exists [], (skipn (List.length p) (c :: s)). exact H.
    + destruct (IH H) as (a & b & ->). exists (c :: a), b. reflexivity.
Qed.

Lemma contains_app_l g x p : contains g p = true -> contains (g ++ x) p = true.
Proof.
  intros H. destruct (contains_split _ _ H) as (a & b & ->).
  rewrite <- !app_assoc. apply contains_app_mid.
Qed.

Lemma contains_app_r g x p : contains x p = true -> contains (g ++ x) p = true.
Proof.
  intros H. destruct (contains_split _ _ H) as (a & b & ->).
  rewrite app_assoc. apply contains_app_mid.
Qed.

(** Where a longer string occurs, so does each of its suffixes. *)
Lemma contains_suffix s q k : contains s (q ++ k) = true -> contains s k = true.
Proof.
  intros H. destruct (contains_split _ _ H) as (a & b & ->).
  rewrite <- app_assoc, app_assoc. apply contains_app_mid.
Qed.

Lemma contains_inside t r k :
  (forall t', In t' (tails t) -> startswith (t' ++ r) k = false) ->
  contains (t ++ r) k = contains r k.
Proof.
  induction t as [|c t IH]; intros H; [reflexivity|].
  simpl app. rewrite contains_cons.
  change (c :: t ++ r) with ((c :: t) ++ r).
  rewrite (H _ (In_tails_self c t)). simpl. apply IH.
  intros t' Ht'. apply H. now right.
Qed.

(** Occurrences of [k] around a [u] that [k] cannot overlap lie wholly
    before it or wholly after it. *)
Lemma contains_around g u r k :
  k <> [] -> cannot_overlap k u = true ->
  contains (g ++ u ++ r) k = contains g k || contains r k.
Proof.
  intros Hk H. induction g as [|c g IH].
  - simpl app. rewrite (contains_nil_l k Hk). simpl.
    apply contains_inside. intros t Ht.
    now apply cannot_overlap_inside with (u := u).
  - simpl app. rewrite !contains_cons, IH, orb_assoc. f_equal. f_equal.
    change (c :: g ++ u ++ r) with ((c :: g) ++ u ++ r).
    apply startswith_before. now apply cannot_overlap_before.
Qed.

(* ================================================================== *)
(** * [str.replace] *)
(* ================================================================== *)

Section Replace.
Variables old new : pystr.
Hypothesis old_nonempty : old <> [].

Lemma replace_nonempty s : replace s old new = replace_scan old new 0 s.
Proof. unfold replace. destruct old; [congruence|reflexivity]. Qed.

Lemma replace_scan_skip k s :
  replace_scan old new k s = replace_scan old new 0 (skipn k s).
Proof.
  revert k; induction s as [|c s IH]; intros k.
  - now rewrite skipn_nil.
  - destruct k as [|k]; [reflexivity|]. simpl. apply IH.
Qed.

(** At an occurrence: [new], then the scan goes on after the occurrence. *)
Lemma replace_scan_match rest :
  replace_scan old new 0 (old ++ rest) = new ++ replace_scan old new 0 rest.
Proof.
  destruct (old ++ rest) as [|c s] eqn:E.
  - destruct old; [congruence|discriminate].
  - cbn [replace_scan]. rewrite <- E, startswith_app, replace_scan_skip.
    do 2 f_equal.
    assert (Hs : s = skipn 1 (old ++ rest)) by now rewrite E.
    rewrite Hs, skipn_skipn.
    replace (List.length old - 1 + 1) with (List.length old)
      by (destruct old; [congruence|simpl; lia]).
    now rewrite skipn_app, skipn_all, Nat.sub_diag.
Qed.

(** Elsewhere: the code point is kept. *)
Lemma replace_scan_keep c s :
  startswith (c :: s) old = false ->
  replace_scan old new 0 (c :: s) = c :: replace_scan old new 0 s.
Proof. intros H. cbn [replace_scan]. now rewrite H. Qed.

(** The scan up to the first occurrence of [old], if there is one. *)
Lemma replace_scan_first s :
  (contains s old = false /\ replace_scan old new 0 s = s) \/
  (exists g rest,
      s = g ++ old ++ rest /\ contains g old = false /\
      replace_scan old new 0 s = g ++ new ++ replace_scan old new 0 rest).
Proof.
  induction s as [|c s IH].
  - left. split; [now apply contains_nil_l|reflexivity].
  - destruct (startswith (c :: s) old) eqn:E.
    + right. exists [], (skipn (List.length old) (c :: s)).
      pose proof (startswith_split _ _ E) as Hs.
      split; [exact Hs|]. split; [now apply contains_nil_l|].
      rewrite Hs at 1. apply replace_scan_match.
    + rewrite (replace_scan_keep _ _ E).
      destruct IH as [[Hn Hr]|(g & rest & Hs & Hg & Hr)].
      * left. rewrite contains_cons, E, Hn, Hr. split; reflexivity.
      * right. exists (c :: g), rest. subst s.
        split; [reflexivity|]. split; [|now rewrite Hr].
        rewrite contains_cons, Hg, orb_false_r.
        destruct (startswith (c :: g) old) eqn:E'; [|reflexivity].
        apply startswith_app_l with (x := old ++ rest) in E'.
        simpl app in E'. congruence.
Qed.

Lemma replace_absent s : contains s old = false -> replace s old new = s.
Proof.
  intros H. rewrite replace_nonempty.
  destruct (replace_scan_first s) as [[_ Hr]|(g & rest & Hs & _ & _)];
    [exact Hr|].
  subst s. now rewrite contains_app_mid in H.
Qed.

(** Where [old] occurred, [new] now stands. *)
Lemma replace_inserts s :
  contains s old = true -> contains (replace s old new) new = true.
Proof.
  intros H. rewrite replace_nonempty.
  destruct (replace_scan_first s) as [[Hn _]|(g & rest & _ & _ & Hr)];
    [congruence|].
  rewrite Hr. apply contains_app_mid.
Qed.

(** A string that cannot overlap [new] and was absent stays absent. *)
Lemma replace_keeps_absent k :
  k <> [] -> cannot_overlap k new = true ->
  forall s, contains s k = false -> contains (replace s old new) k = false.
Proof.
  intros Hk Hov s. rewrite replace_nonempty.
  remember (List.length s) as n eqn:Hn. revert s Hn.
  induction n as [n IH] using lt_wf_ind. intros s Hn Hs.
  destruct (replace_scan_first s) as [[_ Hr]|(g & rest & Heq & _ & Hr)].
  - now rewrite Hr.
  - rewrite Hr, (contains_around _ _ _ _ Hk Hov).
    assert (Hg : contains g k = false).
    { destruct (contains g k) eqn:E; [|reflexivity].
      apply contains_app_l with (x := old ++ rest) in E. congruence. }
    assert (Hrest : contains rest k = false).
    { destruct (contains rest k) eqn:E; [|reflexivity].
      apply contains_app_r with (g := g ++ old) in E.
      rewrite <- app_assoc in E. congruence. }
    rewrite Hg. simpl. apply (IH (List.length rest)); [|reflexivity|exact Hrest].
    subst n s. rewrite !length_app.
    destruct old; [congruence|simpl; lia].
Qed.

(** After the replacement [old] is gone, when it cannot overlap [new]. *)
Lemma replace_removes :
  cannot_overlap old new = true ->
  forall s, contains (replace s old new) old = false.
Proof.
  intros Hov s. rewrite replace_nonempty.
  remember (List.length s) as n eqn:Hn. revert s Hn.
  induction n as [n IH] using lt_wf_ind. intros s Hn.
  destruct (replace_scan_first s) as [[Ha Hr]|(g & rest & Heq & Hg & Hr)].
  - now rewrite Hr.
  - rewrite Hr, (contains_around _ _ _ _ old_nonempty Hov), Hg. simpl.
    apply (IH (List.length rest)); [|reflexivity].
    subst n s. rewrite !length_app.
    destruct old; [congruence|simpl; lia].
Qed.

Lemma replace_scan_inside t b :
  (forall t', In t' (tails t) -> startswith (t' ++ b) old = false) ->
  replace_scan old new 0 (t ++ b) = t ++ replace_scan old new 0 b.
Proof.
  induction t as [|c t IH]; intros H; [reflexivity|].
  simpl app. rewrite replace_scan_keep.
  - f_equal. apply IH. intros t' Ht'. apply H. now right.
  - apply (H (c :: t)). now left.
Qed.

(** A [u] that [old] cannot overlap is a barrier: the text before it and
    the text after it are rewritten separately. *)
Lemma replace_barrier u :
  cannot_overlap old u = true ->
  forall a b,
    replace (a ++ u ++ b) old new = replace a old new ++ u ++ replace b old new.
Proof.
  intros Hov a b. rewrite !replace_nonempty.
  remember (List.length a) as n eqn:Hn. revert a Hn.
  induction n as [n IH] using lt_wf_ind. intros a Hn.
  destruct a as [|c a].
  - simpl app. apply replace_scan_inside.
    intros t Ht. now apply cannot_overlap_inside with (u := u).
  - destruct (startswith (c :: a) old) eqn:E.
    + pose proof (startswith_split _ _ E) as Hs.
      set (a' := skipn (List.length old) (c :: a)) in *.
      rewrite Hs, <- !app_assoc, !replace_scan_match, <- app_assoc.
      f_equal. apply (IH (List.length a')); [|reflexivity].
      subst n. rewrite Hs, length_app.
      destruct old; [congruence|simpl; lia].
    + assert (E' : startswith ((c :: a) ++ u ++ b) old = false).
      { rewrite startswith_before; [exact E|].
        now apply cannot_overlap_before. }
      rewrite (replace_scan_keep _ _ E).
      change ((c :: a) ++ u ++ b) with (c :: a ++ u ++ b) in *.
      rewrite (replace_scan_keep _ _ E').
      change ((c :: ?x) ++ ?y) with (c :: x ++ y). f_equal.
      apply (IH (List.length a)); [subst n; simpl; lia|reflexivity].
Qed.

Lemma replace_keeps u s :
  cannot_overlap old u = true ->
  contains s u = true -> contains (replace s old new) u = true.
Proof.
  intros Hov H. destruct (contains_split _ _ H) as (a & b & ->).
  rewrite (replace_barrier _ Hov). apply contains_app_mid.
Qed.

End Replace.

(* ================================================================== *)
(** * Decoding *)
(* ================================================================== *)

Section Decoding.
Context {R : PyRuntime}.

Lemma decode_latin_1 bs :
  decode (Some bs) latin_1 = Returned (latin_1_decode bs).
Proof. reflexivity. Qed.

(** On bytes, [decode] returns or raises [UnicodeDecodeError]. *)
Lemma decode_bytes_cases bs enc :
  (exists s, codec_decode enc bs = Some s /\ decode (Some bs) enc = Returned s)
  \/ (codec_decode enc bs = None
      /\ decode (Some bs) enc = Raised UnicodeDecodeError).
Proof.
  unfold decode. destruct (codec_decode enc bs) as [s|].
  - left. now exists s.
  - now right.
Qed.

(** The loop returns at the first candidate that decodes the bytes. *)
Lemma try_encodings_first bs pre enc post s :
  (forall e, In e pre -> decode (Some bs) e = Raised UnicodeDecodeError) ->
  decode (Some bs) enc = Returned s ->
  try_encodings (Some bs) (pre ++ enc :: post) = Returned (Some (enc, s)).
Proof.
  intros Hpre Henc. induction pre as [|e pre IH]; cbn [try_encodings app].
  - now rewrite Henc.
  - rewrite (Hpre e (or_introl eq_refl)). apply IH.
    intros e' He'. apply Hpre. now right.
Qed.

(** Without such a candidate the loop ends without a [return]. *)
Lemma try_encodings_none bs encs :
  (forall e, In e encs -> decode (Some bs) e = Raised UnicodeDecodeError) ->
  try_encodings (Some bs) encs = Returned None.
Proof.
  induction encs as [|e encs IH]; intros H; cbn [try_encodings];
    [reflexivity|].
  rewrite (H e (or_introl eq_refl)). apply IH.
  intros e' He'. apply H. now right.
Qed.

(** Every list of candidates splits at its first success, if any. *)
Lemma first_success bs encs :
  (forall e, In e encs -> decode (Some bs) e = Raised UnicodeDecodeError)
  \/ (exists pre enc post s,
         encs = pre ++ enc :: post
         /\ (forall e, In e pre ->
                       decode (Some bs) e = Raised UnicodeDecodeError)
         /\ decode (Some bs) enc = Returned s).
Proof.
  induction encs as [|e encs IH].
  - left. intros e [].
  - destruct (decode_bytes_cases bs e) as [(s & _ & Hs)|[_ He]].
    + right. exists [], e, encs, s. repeat split; [intros e' []|exact Hs].
    + destruct IH as [Hall|(pre & enc & post & s & -> & Hpre & Hs)].
      * left. intros e' [<-|He']; [exact He|now apply Hall].
      * right. exists (e :: pre), enc, post, s. repeat split; [|exact Hs].
        intros e' [<-|He']; [exact He|now apply Hpre].
Qed.

(** With [latin_1] among the candidates there is a first success, and it
    stands at [latin_1] or before it. *)
Lemma first_success_latin_1 bs before after :
  exists pre enc post s,
    before ++ latin_1 :: after = pre ++ enc :: post
    /\ (forall e, In e pre -> decode (Some bs) e = Raised UnicodeDecodeError)
    /\ decode (Some bs) enc = Returned s
    /\ In enc (before ++ [latin_1]).
Proof.
  destruct (first_success bs before)
    as [Hall|(pre & enc & post & s & -> & Hpre & Hs)].
  - exists before, latin_1, after, (latin_1_decode bs).
    repeat split; [exact Hall|apply in_or_app; right; now left].
  - exists pre, enc, (post ++ latin_1 :: after), s.
    rewrite <- app_assoc. repeat split; [exact Hpre|exact Hs|].
    apply in_or_app; left. apply in_or_app; right. now left.
Qed.

Lemma safe_decode_of_path payload encs p s :
  safe_decode_path payload encs = Returned (p, s) ->
  safe_decode payload encs = Returned s.
Proof. unfold safe_decode. now intros ->. Qed.

Lemma safe_decode_path_first bs pre enc post s :
  (forall e, In e pre -> decode (Some bs) e = Raised UnicodeDecodeError) ->
  decode (Some bs) enc = Returned s ->
  safe_decode_path (Some bs) (pre ++ enc :: post)
  = Returned (ByCandidate enc, s).
Proof.
  intros Hpre Hs. unfold safe_decode_path.
  now rewrite (try_encodings_first bs pre enc post s Hpre Hs).
Qed.

(** [safe_decode] returns on every byte sequence, whatever the list of
    candidates and whatever the lossy decoder does. *)
Lemma safe_decode_path_total bs encs :
  exists p s, safe_decode_path (Some bs) encs = Returned (p, s).
Proof.
  destruct (first_success bs encs)
    as [Hall|(pre & enc & post & s & -> & Hpre & Hs)].
  - unfold safe_decode_path. rewrite (try_encodings_none bs encs Hall).
    cbn [bind]. destruct (decode_utf8_replace bs) as [s|e].
    + now exists ByLossyUtf8, s.
    + now exists ByForcedLatin1, (latin_1_decode bs).
  - exists (ByCandidate enc), s. now apply safe_decode_path_first.
Qed.

Lemma safe_decode_total bs encs :
  exists s, safe_decode (Some bs) encs = Returned s.
Proof.
  destruct (safe_decode_path_total bs encs) as (p & s & H).
  exists s. now apply safe_decode_of_path with (p := p).
Qed.

End Decoding.

Lemma nth_forallb {A} (f : A -> bool) l d i :
  forallb f l = true -> f d = true -> f (nth i l d) = true.
Proof.
  revert i; induction l as [|x l IH]; intros [|i] Hl Hd; simpl in *;
    try assumption; apply andb_true_iff in Hl as [Hx Hl]; auto.
Qed.

Lemma b64_digit_ascii n : is_ascii_byte (b64_digit n) = true.
Proof. unfold b64_digit. apply nth_forallb; reflexivity. Qed.

Lemma b64encode_bytes_ascii bs :
  forallb is_ascii_byte (b64encode_bytes bs) = true.
Proof.
  remember (List.length bs) as n eqn:Hn. revert bs Hn.
  induction n as [n IH] using lt_wf_ind. intros bs Hn.
  destruct bs as [|a [|b [|c rest]]]; cbn [b64encode_bytes].
  - reflexivity.
  - cbn [forallb]. now rewrite !b64_digit_ascii.
  - cbn [forallb]. now rewrite !b64_digit_ascii.
  - cbn [forallb app]. rewrite !b64_digit_ascii. simpl.
    apply (IH (List.length rest)); [subst n; simpl; lia|reflexivity].
Qed.

Lemma utf_8_decode_ascii bs :
  forallb is_ascii_byte bs = true -> utf_8_decode bs = Some (latin_1_decode bs).
Proof.
  induction bs as [|b bs IH]; intros H; [reflexivity|].
  cbn [forallb] in H. apply andb_true_iff in H as [Hb Hbs].
  cbn [utf_8_decode]. unfold is_ascii_byte in Hb. rewrite Hb, (IH Hbs).
  reflexivity.
Qed.

(** The text of a base64 encoding always decodes. *)
Lemma decode_b64 payload :
  decode (Some (b64encode_bytes payload)) utf_8 = Returned (b64_text payload).
Proof.
  unfold decode, codec_decode.
  now rewrite (utf_8_decode_ascii _ (b64encode_bytes_ascii payload)).
Qed.

(* ================================================================== *)
(** * Finalization *)
(* ================================================================== *)

Section Strip.
Variable f : N -> bool.

Lemma lstrip_with_snoc l c :
  f c = false -> lstrip_with f (l ++ [c]) = lstrip_with f l ++ [c].
Proof.
  intros Hc. induction l as [|d l IH]; simpl.
  - now rewrite Hc.
  - destruct (f d); [exact IH|reflexivity].
Qed.

(** A code point that is kept stops the stripping on its side. *)
Lemma rstrip_with_cons c s :
  f c = false -> rstrip_with f (c :: s) = c :: rstrip_with f s.
Proof.
  intros Hc. unfold rstrip_with. simpl rev.
  now rewrite (lstrip_with_snoc _ _ Hc), rev_app_distr.
Qed.
End Strip.

Section Finalize.
Context {R : PyRuntime}.

(** [lower] works code point by code point on an ASCII prefix. *)
Lemma lower_from_ascii_prefix p before rest :
  forallb (fun c => c <? 128)%N p = true ->
  lower_from before (p ++ rest)
  = map ascii_lower p ++ lower_from (before ++ p) rest.
Proof.
  revert before; induction p as [|c p IH]; intros before H.
  - now rewrite app_nil_r.
  - cbn [forallb] in H. apply andb_true_iff in H as [Hc Hp].
    cbn [app lower_from map]. rewrite Hc, (IH _ Hp), <- app_assoc.
    reflexivity.
Qed.

(** Stripped, the skeleton begins with its doctype. *)
Lemma strip_skeleton html_body :
  exists rest, strip (html_skeleton html_body) = lit "<!DOCTYPE" ++ rest.
Proof.
  unfold strip, strip_with, html_skeleton.
  assert (H : lstrip_with isspace (skeleton_head ++ html_body ++ skeleton_tail)
              = lit "<!DOCTYPE"
                    ++ (skipn 18 skeleton_head ++ html_body ++ skeleton_tail))
    by reflexivity.
  rewrite H. clear H.
  change (lit "<!DOCTYPE") with [60; 33; 68; 79; 67; 84; 89; 80; 69]%N.
  cbn [app]. rewrite !rstrip_with_cons by reflexivity.
  eexists. reflexivity.
Qed.

Lemma has_html_opening_skeleton html_body :
  has_html_opening (html_skeleton html_body) = true.
Proof.
  unfold has_html_opening, lower.
  destruct (strip_skeleton html_body) as (rest & ->).
  rewrite lower_from_ascii_prefix by reflexivity.
  change (map ascii_lower (lit "<!DOCTYPE")) with (lit "<!doctype").
  now rewrite startswith_app.
Qed.

Lemma finalize_cases html_body :
  (has_html_opening html_body = true /\ finalize html_body = html_body)
  \/ (has_html_opening html_body = false
      /\ finalize html_body = html_skeleton html_body).
Proof.
  unfold finalize, has_html_opening.
  destruct (startswith (lower (strip html_body)) (lit "<!doctype"));
    destruct (startswith (lower (strip html_body)) (lit "<html"));
    simpl; auto.
Qed.

Lemma has_html_opening_finalize html_body :
  has_html_opening (finalize html_body) = true.
Proof.
  destruct (finalize_cases html_body) as [[H ->]|[_ ->]];
    [exact H|apply has_html_opening_skeleton].
Qed.

Lemma finalize_fixed html_body :
  has_html_opening html_body = true -> finalize html_body = html_body.
Proof.
  intros H. destruct (finalize_cases html_body) as [[_ E]|[E _]];
    [exact E|congruence].
Qed.

Lemma finalize_contains html_body u :
  contains html_body u = true -> contains (finalize html_body) u = true.
Proof.
  intros H. destruct (finalize_cases html_body) as [[_ ->]|[_ ->]];
    [exact H|].
  unfold html_skeleton. apply contains_app_r. now apply contains_app_l.
Qed.
End Finalize.

Lemma startswith_separator a c r w :
  char_in c w = false ->
  startswith (a ++ c :: r) w = startswith a w.
Proof.
  revert a; induction w as [|d w IH]; intros a H; [reflexivity|].
  unfold char_in in H. cbn [existsb] in H.
  apply orb_false_iff in H as [Hd Hw].
  destruct a as [|x a]; cbn [app startswith].
  - now rewrite Hd.
  - f_equal. now apply IH.
Qed.

(** A text without the code point [c] occurs before a [c] or after it. *)
Lemma contains_separator t c r w :
  w <> [] -> char_in c w = false ->
  contains (t ++ c :: r) w = contains t w || contains r w.
Proof.
  intros Hw Hc. induction t as [|x t IH].
  - pose proof (startswith_separator [] c r w Hc) as E.
    cbn [app] in *. rewrite contains_cons, E, (contains_nil_l w Hw).
    destruct w; [congruence|reflexivity].
  - cbn [app]. rewrite !contains_cons, IH, orb_assoc. do 2 f_equal.
    exact (startswith_separator (x :: t) c r w Hc).
Qed.

Section FinalizeCid.
Context {R : PyRuntime}.

(** The skeleton brings no [cid:] reference of a key without newline. *)
Lemma finalize_no_cid html_body key :
  char_in 10 key = false ->
  contains html_body (lit "cid:" ++ key) = false ->
  contains (finalize html_body) (lit "cid:" ++ key) = false.
Proof.
  intros Hnl H. destruct (finalize_cases html_body) as [[_ ->]|[_ ->]];
    [exact H|].
  unfold html_skeleton.
  assert (Hhead : forall x,
             contains (skeleton_head ++ x) (lit "cid:" ++ key)
             = contains x (lit "cid:" ++ key)) by (intros x; reflexivity).
  rewrite Hhead.
  change skeleton_tail with (10%N :: tl skeleton_tail).
  rewrite contains_separator, H; [reflexivity|discriminate|].
  exact Hnl.
Qed.
End FinalizeCid.

(* ================================================================== *)
(** * Substitution of the images *)
(* ================================================================== *)

Lemma data_uri_nonempty info : data_uri info <> [].
Proof. discriminate. Qed.

Lemma cannot_overlap_nonempty old u :
  u <> [] -> cannot_overlap old u = true -> old <> [].
Proof.
  intros Hu H ->. destruct u as [|c u]; [congruence|].
  unfold cannot_overlap in H. cbn in H. discriminate.
Qed.

Lemma cid_key_nonempty key : lit "cid:" ++ key <> [].
Proof. discriminate. Qed.

Lemma substitute_images_app body a b :
  substitute_images body (a ++ b)
  = substitute_images (substitute_images body a) b.
Proof. apply fold_left_app. Qed.

(** After the two replacements of an image its key is gone. *)
Lemma substitute_image_removes body key info :
  cannot_overlap key (data_uri info) = true ->
  contains (substitute_image body (key, info)) key = false.
Proof.
  intros H. cbn [substitute_image]. apply replace_removes; [|exact H].
  exact (cannot_overlap_nonempty _ _ (data_uri_nonempty info) H).
Qed.

(** The replacements of another image do not bring an absent key back. *)
Lemma substitute_image_keeps_absent body k key info :
  key <> [] -> k <> [] ->
  cannot_overlap k (data_uri info) = true ->
  contains body k = false ->
  contains (substitute_image body (key, info)) k = false.
Proof.
  intros Hkey Hk H Hb. cbn [substitute_image].
  apply replace_keeps_absent; try assumption.
  apply replace_keeps_absent; try assumption.
  apply cid_key_nonempty.
Qed.

(** The replacements of an image leave alone a text that neither of
    its two searched texts can overlap. *)
Lemma substitute_image_keeps body u key info :
  key <> [] ->
  cannot_overlap key u = true ->
  cannot_overlap (lit "cid:" ++ key) u = true ->
  contains body u = true ->
  contains (substitute_image body (key, info)) u = true.
Proof.
  intros Hkey H1 H2 Hb. cbn [substitute_image].
  apply replace_keeps; try assumption.
  apply replace_keeps; try assumption.
  apply cid_key_nonempty.
Qed.

(** A body that mentions the key receives the data URI. *)
Lemma substitute_image_inserts body key info :
  cannot_overlap key (data_uri info) = true ->
  contains body key = true ->
  contains (substitute_image body (key, info)) (data_uri info) = true.
Proof.
  intros H Hb. cbn [substitute_image].
  pose proof (cannot_overlap_nonempty _ _ (data_uri_nonempty info) H) as Hkey.
  destruct (contains body (lit "cid:" ++ key)) eqn:Hcid.
  - apply replace_keeps; try assumption.
    apply replace_inserts; [apply cid_key_nonempty|exact Hcid].
  - rewrite (replace_absent _ (data_uri info) (cid_key_nonempty key) _ Hcid).
    now apply replace_inserts.
Qed.

Lemma non_interfering_In imgs item other :
  non_interfering imgs = true -> In item imgs -> In other imgs ->
  cannot_overlap (fst item) (data_uri (snd other)) = true
  /\ cannot_overlap (lit "cid:" ++ fst item) (data_uri (snd other)) = true.
Proof.
  unfold non_interfering. intros H Hi Ho.
  rewrite forallb_forall in H. specialize (H item Hi).
  rewrite forallb_forall in H. specialize (H other Ho).
  now apply andb_true_iff in H.
Qed.

Lemma non_interfering_key_nonempty imgs item :
  non_interfering imgs = true -> In item imgs -> fst item <> [].
Proof.
  intros H Hi. destruct (non_interfering_In imgs item item H Hi Hi) as [H1 _].
  exact (cannot_overlap_nonempty _ _ (data_uri_nonempty _) H1).
Qed.

Lemma substitute_images_keeps_absent k later :
  k <> [] ->
  (forall item, In item later ->
                fst item <> []
                /\ cannot_overlap k (data_uri (snd item)) = true) ->
  forall body, contains body k = false ->
               contains (substitute_images body later) k = false.
Proof.
  intros Hk. induction later as [|[key info] later IH]; intros H body Hb.
  - exact Hb.
  - cbn [substitute_images fold_left].
    apply IH; [intros item Hi; apply H; now right|].
    destruct (H (key, info) (or_introl eq_refl)) as [Hkey Hov].
    now apply substitute_image_keeps_absent.
Qed.

Lemma substitute_images_keeps u later :
  (forall item, In item later ->
                fst item <> []
                /\ cannot_overlap (fst item) u = true
                /\ cannot_overlap (lit "cid:" ++ fst item) u = true) ->
  forall body, contains body u = true ->
               contains (substitute_images body later) u = true.
Proof.
  induction later as [|[key info] later IH]; intros H body Hb.
  - exact Hb.
  - cbn [substitute_images fold_left].
    apply IH; [intros item Hi; apply H; now right|].
    destruct (H (key, info) (or_introl eq_refl)) as (Hkey & H1 & H2).
    now apply substitute_image_keeps.
Qed.

(** The substitution of non-interfering images: each key is gone from
    the text, and the data URI of an image whose key was still in the
    text at its turn is there. *)
Lemma substitute_images_sound body imgs :
  non_interfering imgs = true ->
  forall pre key info post,
    imgs = pre ++ (key, info) :: post ->
    contains (substitute_images body imgs) key = false
    /\ (contains (substitute_images body pre) key = true ->
        contains (substitute_images body imgs) (data_uri info) = true).
Proof.
  intros Hni pre key info post ->.
  assert (Hin : In (key, info) (pre ++ (key, info) :: post))
    by (apply in_or_app; right; now left).
  assert (Hlater : forall item, In item post ->
                                In item (pre ++ (key, info) :: post))
    by (intros item Hi; apply in_or_app; right; now right).
  destruct (non_interfering_In _ _ _ Hni Hin Hin) as [Hself _].
  pose proof (non_interfering_key_nonempty _ _ Hni Hin) as Hkey.
  cbn [fst snd] in *.
  rewrite substitute_images_app.
  change (substitute_images ?b ((key, info) :: post))
    with (substitute_images (substitute_image b (key, info)) post).
  split.
  - apply substitute_images_keeps_absent; [exact Hkey| |].
    + intros item Hi. split.
      * exact (non_interfering_key_nonempty _ _ Hni (Hlater _ Hi)).
      * now destruct (non_interfering_In _ _ _ Hni Hin (Hlater _ Hi)).
    + now apply substitute_image_removes.
  - intros Hb. apply substitute_images_keeps.
    + intros item Hi. split.
      * exact (non_interfering_key_nonempty _ _ Hni (Hlater _ Hi)).
      * exact (non_interfering_In _ _ _ Hni (Hlater _ Hi) Hin).
    + now apply substitute_image_inserts.
Qed.

(* ================================================================== *)
(** * Selection of the body and collection of the images *)
(* ================================================================== *)

Lemma pystr_eqb_refl a : pystr_eqb a a = true.
Proof. induction a as [|x a IH]; simpl; [reflexivity|]. now rewrite N.eqb_refl. Qed.

Lemma pystr_eqb_eq a b : pystr_eqb a b = true -> a = b.
Proof.
  revert b; induction a as [|x a IH]; intros [|y b] H; simpl in H;
    try discriminate; [reflexivity|].
  apply andb_true_iff in H as [Hx Hab]. apply N.eqb_eq in Hx.
  f_equal; [exact Hx|now apply IH].
Qed.

(** A container is neither a text part nor an image. *)
Lemma container_not_html m subtype subparts :
  pystr_eqb (get_content_type (Container m subtype subparts))
            (lit "text/html") = false.
Proof. destruct m; reflexivity. Qed.

Lemma container_not_plain m subtype subparts :
  pystr_eqb (get_content_type (Container m subtype subparts))
            (lit "text/plain") = false.
Proof. destruct m; reflexivity. Qed.

Lemma container_not_image m subtype subparts :
  pystr_eqb (get_content_maintype (Container m subtype subparts))
            (lit "image") = false.
Proof. destruct m; reflexivity. Qed.

Lemma html_is_leaf part :
  pystr_eqb (get_content_type part) (lit "text/html") = true ->
  exists payload, get_payload part = Some payload.
Proof.
  destruct part as [ct cid fn payload|m subtype subparts]; intros H.
  - now exists payload.
  - now rewrite container_not_html in H.
Qed.

Lemma image_is_leaf part :
  pystr_eqb (get_content_maintype part) (lit "image") = true ->
  exists payload, get_payload part = Some payload.
Proof.
  destruct part as [ct cid fn payload|m subtype subparts]; intros H.
  - now exists payload.
  - now rewrite container_not_image in H.
Qed.


Section Selection.
Context {R : PyRuntime}.

Lemma safe_decode_part_returns part :
  (exists payload, get_payload part = Some payload) ->
  exists text, safe_decode (get_payload part) encodings = Returned text.
Proof. intros (payload & ->). apply safe_decode_total. Qed.

Lemma plain_is_leaf part :
  pystr_eqb (get_content_type part) (lit "text/plain") = true ->
  exists payload, get_payload part = Some payload.
Proof.
  destruct part as [ct cid fn payload|m subtype subparts]; intros H.
  - now exists payload.
  - now rewrite container_not_plain in H.
Qed.

Lemma find_html_none parts :
  (forall q, In q parts ->
             pystr_eqb (get_content_type q) (lit "text/html") = false) ->
  find_html parts = Returned None.
Proof.
  induction parts as [|p parts IH]; intros H; [reflexivity|].
  cbn [find_html]. rewrite (H p (or_introl eq_refl)).
  apply IH. intros q Hq. apply H. now right.
Qed.

Lemma find_html_first pre part post :
  (forall q, In q pre ->
             pystr_eqb (get_content_type q) (lit "text/html") = false) ->
  pystr_eqb (get_content_type part) (lit "text/html") = true ->
  find_html (pre ++ part :: post)
  = html_body <- safe_decode (get_payload part) encodings ;;
    Returned (Some html_body).
Proof.
  intros Hpre Hpart. induction pre as [|p pre IH]; cbn [app find_html].
  - now rewrite Hpart.
  - rewrite (Hpre p (or_introl eq_refl)). apply IH.
    intros q Hq. apply Hpre. now right.
Qed.

Lemma find_plain_none parts html_body :
  (forall q, In q parts ->
             pystr_eqb (get_content_type q) (lit "text/plain") = false) ->
  find_plain parts html_body = Returned html_body.
Proof.
  induction parts as [|p parts IH]; intros H; [reflexivity|].
  cbn [find_plain]. rewrite (H p (or_introl eq_refl)).
  apply IH. intros q Hq. apply H. now right.
Qed.

Lemma find_plain_first pre part post html_body :
  (forall q, In q pre ->
             pystr_eqb (get_content_type q) (lit "text/plain") = false) ->
  pystr_eqb (get_content_type part) (lit "text/plain") = true ->
  find_plain (pre ++ part :: post) html_body
  = plain_text <- safe_decode (get_payload part) encodings ;;
    Returned (Some (plain_text_document plain_text)).
Proof.
  intros Hpre Hpart. induction pre as [|p pre IH]; cbn [app find_plain].
  - now rewrite Hpart.
  - rewrite (Hpre p (or_introl eq_refl)). apply IH.
    intros q Hq. apply Hpre. now right.
Qed.

(** Without a [text/html] and a [text/plain] part the body stays [None],
    and line 118 calls [strip] on it. *)
Lemma extract_no_body msg :
  (forall q, In q (walk msg) ->
             pystr_eqb (get_content_type q) (lit "text/html") = false
             /\ pystr_eqb (get_content_type q) (lit "text/plain") = false) ->
  extract_html_with_embedded_images msg = Raised AttributeError.
Proof.
  intros H. unfold extract_html_with_embedded_images, select_body.
  rewrite find_html_none by (intros q Hq; apply H, Hq).
  cbn [bind truthy negb].
  rewrite find_plain_none by (intros q Hq; apply H, Hq).
  reflexivity.
Qed.

(** [None] is never returned. *)
Lemma extract_never_none msg :
  extract_html_with_embedded_images msg <> Returned None.
Proof.
  unfold extract_html_with_embedded_images.
  destruct (select_body (walk msg)) as [[html_body flag]|e];
    cbn [bind fst]; [|discriminate].
  destruct (truthy html_body).
  - destruct (collect_images [] (walk msg)) as [imgs|e];
      cbn [bind]; [|discriminate].
    destruct html_body; cbn [option_map]; discriminate.
  - cbn [bind]. destruct html_body; discriminate.
Qed.

(** What a returned document is made of. *)
Lemma extract_returned msg out :
  extract_html_with_embedded_images msg = Returned (Some out) ->
  exists body flag,
    select_body (walk msg) = Returned (Some body, flag)
    /\ ((body = [] /\ out = finalize [])
        \/ (body <> [] /\
            exists imgs,
              collect_images [] (walk msg) = Returned imgs
              /\ out = finalize (substitute_images body imgs))).
Proof.
  unfold extract_html_with_embedded_images.
  destruct (select_body (walk msg)) as [[html_body flag]|e];
    cbn [bind fst]; [|discriminate].
  destruct html_body as [[|c body]|]; cbn [truthy bind].
  - intros [= <-]. exists [], flag. split; [reflexivity|]. now left.
  - destruct (collect_images [] (walk msg)) as [imgs|e];
      cbn [bind option_map]; [|discriminate].
    intros [= <-]. exists (c :: body), flag. split; [reflexivity|].
    right. split; [discriminate|]. now exists imgs.
  - discriminate.
Qed.

Lemma extract_of_body msg body flag imgs :
  select_body (walk msg) = Returned (Some body, flag) ->
  body <> [] ->
  collect_images [] (walk msg) = Returned imgs ->
  extract_html_with_embedded_images msg
  = Returned (Some (finalize (substitute_images body imgs))).
Proof.
  intros Hs Hb Hc. unfold extract_html_with_embedded_images.
  rewrite Hs. cbn [bind fst].
  destruct body as [|c body]; [congruence|]. cbn [truthy].
  now rewrite Hc.
Qed.

End Selection.

Section Collection.
Context {R : PyRuntime}.


(** What the loop body does with an image part whose [Content-ID] is a
    [str] or is not there. *)
Lemma collect_image_image d part payload value :
  pystr_eqb (get_content_maintype part) (lit "image") = true ->
  get_payload part = Some payload ->
  get_content_id part = HeaderStr value ->
  let content_id := strip_chars value (lit "<>") in
  let img_key := img_key_of content_id (get_filename part) d in
  collect_image d part
  = Returned
      (dict_set d img_key
         {| data := b64_text payload;
            mime_type := get_content_type part;
            info_filename := filename_or (get_filename part) img_key |}).
Proof.
  intros Himg Hp Hcid. unfold collect_image.
  rewrite Himg, Hp, Hcid. cbn [header_strip b64encode bind].
  rewrite decode_b64. reflexivity.
Qed.

(** Line 91 raises on an image part whose [Content-ID] is a [Header]. *)
Lemma collect_image_header d part :
  header_image part = true ->
  collect_image d part = Raised AttributeError.
Proof.
  unfold header_image, collect_image. intros H.
  apply andb_prop in H as [Himg Hcid]. rewrite Himg.
  destruct (get_content_id part); [discriminate|reflexivity].
Qed.

(** The loop body either leaves the dictionary alone, or sets one key, or
    raises [AttributeError] at line 91. *)
Lemma collect_image_cases d part :
  (pystr_eqb (get_content_maintype part) (lit "image") = false
   /\ collect_image d part = Returned d)
  \/ (exists payload value,
        pystr_eqb (get_content_maintype part) (lit "image") = true
        /\ get_payload part = Some payload
        /\ get_content_id part = HeaderStr value
        /\ header_image part = false
        /\ collect_image d part
           = Returned
               (dict_set d
                  (img_key_of (strip_chars value (lit "<>"))
                              (get_filename part) d)
                  {| data := b64_text payload;
                     mime_type := get_content_type part;
                     info_filename :=
                       filename_or (get_filename part)
                         (img_key_of (strip_chars value (lit "<>"))
                                     (get_filename part) d) |}))
  \/ (header_image part = true
      /\ collect_image d part = Raised AttributeError).
Proof.
  destruct (pystr_eqb (get_content_maintype part) (lit "image")) eqn:E.
  - destruct (get_content_id part) as [value|raw] eqn:Hcid.
    + right; left. destruct (image_is_leaf part E) as (payload & Hp).
      exists payload, value. repeat split; try assumption.
      * unfold header_image. now rewrite E, Hcid.
      * exact (collect_image_image d part payload value E Hp Hcid).
    + right; right.
      assert (H : header_image part = true)
        by (unfold header_image; now rewrite E, Hcid).
      split; [exact H|now apply collect_image_header].
  - left. split; [reflexivity|]. unfold collect_image. now rewrite E.
Qed.

Lemma collect_image_other d part :
  pystr_eqb (get_content_maintype part) (lit "image") = false ->
  collect_image d part = Returned d.
Proof. intros H. unfold collect_image. now rewrite H. Qed.

(** A part that is not an image is not a [Header] image. *)
Lemma header_image_other part :
  pystr_eqb (get_content_maintype part) (lit "image") = false ->
  header_image part = false.
Proof. intros H. unfold header_image. now rewrite H. Qed.

(** The loop over the parts returns when no image has a [Header] for
    [Content-ID]. *)
Lemma collect_images_returns parts :
  forall d, has_header_image parts = false ->
            exists d', collect_images d parts = Returned d'.
Proof.
  induction parts as [|p parts IH]; intros d Hh; [now exists d|].
  cbn [has_header_image existsb] in Hh.
  apply orb_false_elim in Hh as [Hp Hrest].
  cbn [collect_images].
  destruct (collect_image_cases d p)
    as [[_ H]|[(payload & value & _ & _ & _ & _ & H)|[Hhead _]]].
  - rewrite H. cbn [bind]. now apply IH.
  - rewrite H. cbn [bind]. now apply IH.
  - congruence.
Qed.

(** The loop over the parts raises [AttributeError], and nothing else,
    when some image has a [Header] for [Content-ID]. *)
Lemma collect_images_raises parts :
  forall d, has_header_image parts = true ->
            collect_images d parts = Raised AttributeError.
Proof.
  induction parts as [|p parts IH]; intros d Hh; [discriminate|].
  cbn [has_header_image existsb] in Hh.
  cbn [collect_images].
  destruct (collect_image_cases d p)
    as [[Himg H]|[(payload & value & _ & _ & _ & Hp & H)|[_ H]]].
  - rewrite H. cbn [bind]. apply IH.
    now rewrite (header_image_other p Himg) in Hh.
  - rewrite H. cbn [bind]. apply IH. now rewrite Hp in Hh.
  - now rewrite H.
Qed.




Lemma dict_set_length d key value :
  List.length (dict_set d key value) <= S (List.length d).
Proof.
  induction d as [|[k v] d IH]; cbn [dict_set]; [simpl; lia|].
  destruct (pystr_eqb k key); simpl; lia.
Qed.

Lemma count_images_cons p parts :
  count_images (p :: parts)
  = (if pystr_eqb (get_content_maintype p) (lit "image") then 1 else 0)
    + count_images parts.
Proof.
  unfold count_images. cbn [filter].
  destruct (pystr_eqb (get_content_maintype p) (lit "image")); reflexivity.
Qed.



End Collection.

(* ================================================================== *)
(** * The functions on concrete inputs *)
(* ================================================================== *)

(** ['aaa'.replace('aa', 'b')] is ['ba']: matches do not overlap. *)
Example replace_aaa : replace (lit "aaa") (lit "aa") (lit "b") = lit "ba".
Proof. reflexivity. Qed.

(** ['abc'.replace('', '-')] is ['-a-b-c-']. *)
Example replace_empty_old : replace (lit "abc") [] (lit "-") = lit "-a-b-c-".
Proof. reflexivity. Qed.

Example strip_chars_angle : strip_chars (lit "<<a>><") (lit "<>") = lit "a".
Proof. reflexivity. Qed.

Example str_of_nat_12 : str_of_nat 12 = lit "12".
Proof. reflexivity. Qed.

(** An image whose [Content-ID] is a [Header] object stops the extraction
    at line 91, and a filename that is there and empty is passed over. *)
Example extract_header_cid :
  @extract_html_with_embedded_images ascii_runtime msg_header_cid
  = Raised AttributeError.
Proof. reflexivity. Qed.

Example lambda_handler_header_cid :
  @lambda_handler ascii_runtime (sample_collaborators msg_header_cid)
    (Some sample_event)
  = Failed (CoreError AttributeError).
Proof. reflexivity. Qed.

Example collect_empty_filename :
  collected_keys (collect_images [] (walk msg_empty_filename))
  = [lit "image_0"]
  /\ spec_img_key (png None (Some [])) 0 = lit "image_0".
Proof. split; reflexivity. Qed.

(** The euro sign in UTF-8; an overlong form and a surrogate are refused. *)
Example utf_8_euro : utf_8_decode [xe2; x82; xac] = Some [8364%N].
Proof. reflexivity. Qed.

Example utf_8_overlong : utf_8_decode [xc0; x80] = None.
Proof. reflexivity. Qed.

Example utf_8_surrogate : utf_8_decode [xed; xa0; x80] = None.
Proof. reflexivity. Qed.

Example b64_hello : b64_text (bytes_of "Hello") = lit "SGVsbG8=".
Proof. reflexivity. Qed.

(** The byte 80 is not UTF-8 and is the euro sign in Windows-1252; the
    byte 81 is undefined there and is left to Latin-1. *)
Example safe_decode_x80 :
  @safe_decode_path ascii_runtime (Some [x80]) encodings
  = Returned (ByCandidate cp1252, [8364%N]).
Proof. reflexivity. Qed.

Example safe_decode_x81 :
  @safe_decode_path ascii_runtime (Some [x81]) encodings
  = Returned (ByCandidate latin_1, [129%N]).
Proof. reflexivity. Qed.

(** The scenario of the logo: the reference is replaced by the data URI. *)
Example extract_logo :
  @extract_html_with_embedded_images ascii_runtime msg_logo
  = Returned
      (Some (html_skeleton (lit "<img src=data:image/png;base64,QUJD>"))).
Proof. reflexivity. Qed.

(** The scenario of the plain text. *)
Example extract_plain_hello :
  @extract_html_with_embedded_images ascii_runtime msg_plain_hello
  = Returned (Some (plain_text_document (lit "Hello"))).
Proof. reflexivity. Qed.

(* ================================================================== *)
(** * The claims *)
(* ================================================================== *)

(** C1 (the code departs from it): a message without a [text/html] and a
    [text/plain] part should give the "no body" signal [None] without an
    error. On the message that is only an attachment [html_body] is still
    [None] at line 118, whose [html_body.strip()] raises [AttributeError];
    [lambda_handler] never gets the [None] that its [else] branch
    (lines 195-200) reports. *)
Theorem C1_no_body_raises :
  forall R : PyRuntime,
    @extract_html_with_embedded_images R msg_attachment_only
    = Raised AttributeError.
Proof.
  intros R. apply extract_no_body. intros q [<-|[]]. split; reflexivity.
Qed.

(** C2, as the specification states it, fails: the skeleton of lines
    119-129 begins with a newline and eight spaces, so a wrapped document
    begins neither with [<!DOCTYPE html>] nor with [<html>]; and a body that
    begins with [<htmlx>] passes the test of line 118 and is returned as it
    is, although it begins with no doctype and no [html] tag, even once
    stripped and lowered. *)
Lemma C2_counterexample :
  (exists out,
      @extract_html_with_embedded_images ascii_runtime msg_paragraph
      = Returned (Some out)
      /\ startswith out (lit "<!DOCTYPE html>") = false
      /\ startswith out (lit "<html>") = false)
  /\ (exists out,
         @extract_html_with_embedded_images ascii_runtime msg_htmlx
         = Returned (Some out)
         /\ startswith (@lower ascii_runtime (strip out)) (lit "<!doctype html>")
            = false
         /\ startswith (@lower ascii_runtime (strip out)) (lit "<html>")
            = false).
Proof.
  split; eexists; (split; [reflexivity|split; reflexivity]).
Qed.

(** C2 (amended): every document that [extract_html_with_embedded_images]
    returns begins, once stripped of surrounding white space and put in
    lower case, with [<!doctype] or with [<html]: the test of line 118
    holds of the result. The document is made of the text after the
    substitution (the selected body with its images replaced, or the empty
    body): when that text passes the test it is returned as it is; when it
    fails the test it is returned between the two halves of the skeleton of
    lines 119-129, so that the document begins with a newline, eight spaces
    and [<!DOCTYPE html>]. *)
Theorem C2_output_has_html_opening :
  forall (R : PyRuntime) (msg : Message) (out : pystr),
    extract_html_with_embedded_images msg = Returned (Some out) ->
    has_html_opening out = true
    /\ exists body flag text,
        select_body (walk msg) = Returned (Some body, flag)
        /\ ((body = [] /\ text = [])
            \/ (body <> []
                /\ exists embedded_images,
                    collect_images [] (walk msg) = Returned embedded_images
                    /\ text = substitute_images body embedded_images))
        /\ ((has_html_opening text = true /\ out = text)
            \/ (has_html_opening text = false
                /\ out = skeleton_head ++ text ++ skeleton_tail
                /\ startswith out (nl ++ spaces 8 ++ lit "<!DOCTYPE html>")
                   = true)).
Proof.
  intros R msg out H.
  assert (Hfin : forall text,
             out = finalize text ->
             (has_html_opening text = true /\ out = text)
             \/ (has_html_opening text = false
                 /\ out = skeleton_head ++ text ++ skeleton_tail
                 /\ startswith out (nl ++ spaces 8 ++ lit "<!DOCTYPE html>")
                    = true)).
  { intros text ->.
    destruct (finalize_cases text) as [[Ht ->]|[Ht ->]]; [now left|right].
    split; [exact Ht|]. split; [reflexivity|].
    unfold html_skeleton. apply startswith_app_l. reflexivity. }
  destruct (extract_returned msg out H)
    as (body & flag & Hs & [[Hb Ho]|(Hb & imgs & Hc & Ho)]).
  - split; [rewrite Ho; apply has_html_opening_finalize|].
    exists body, flag, []. split; [exact Hs|]. split; [now left|].
    now apply Hfin.
  - split; [rewrite Ho; apply has_html_opening_finalize|].
    exists body, flag, (substitute_images body imgs).
    split; [exact Hs|]. split; [|now apply Hfin].
    right. split; [exact Hb|]. now exists imgs.
Qed.

Lemma C2_witness :
  @extract_html_with_embedded_images ascii_runtime msg_paragraph
  = Returned (Some (skeleton_head ++ lit "<p>hi</p>" ++ skeleton_tail))
  /\ @has_html_opening ascii_runtime
       (skeleton_head ++ lit "<p>hi</p>" ++ skeleton_tail) = true
  /\ exists body flag text,
      @select_body ascii_runtime (walk msg_paragraph)
      = Returned (Some body, flag)
      /\ ((body = [] /\ text = [])
          \/ (body <> []
              /\ exists embedded_images,
                  collect_images [] (walk msg_paragraph)
                  = Returned embedded_images
                  /\ text = substitute_images body embedded_images))
      /\ ((@has_html_opening ascii_runtime text = true
           /\ skeleton_head ++ lit "<p>hi</p>" ++ skeleton_tail = text)
          \/ (@has_html_opening ascii_runtime text = false
              /\ skeleton_head ++ lit "<p>hi</p>" ++ skeleton_tail
                 = skeleton_head ++ text ++ skeleton_tail
              /\ startswith
                   (skeleton_head ++ lit "<p>hi</p>" ++ skeleton_tail)
                   (nl ++ spaces 8 ++ lit "<!DOCTYPE html>")
                 = true)).
Proof.
  split; [reflexivity|].
  apply (C2_output_has_html_opening ascii_runtime msg_paragraph).
  reflexivity.
Defined.

(** C3, as the specification states it, fails: when the first [text/html]
    part decodes to the empty string, [not html_body] holds at line 63, the
    search for [text/plain] runs and its part becomes the body. *)
Lemma C3_counterexample :
  existsb (fun part => pystr_eqb (get_content_type part) (lit "text/html"))
          (walk msg_empty_html) = true
  /\ @select_body ascii_runtime (walk msg_empty_html)
     = Returned (Some (plain_text_document (lit "Hello")), true).
Proof. split; reflexivity. Qed.

(** C3 (amended): in a message with a [text/html] part, the first such part
    in the order of [walk] is decoded; when the decoded text is not empty it
    is the body and the search for [text/plain] does not run; when it is
    empty the search for [text/plain] runs: the first [text/plain] part in
    the order of [walk], if there is one, is decoded and the document built
    around its text becomes the body, and without such a part the body
    stays the empty text. *)
Theorem C3_html_part_selected :
  forall (R : PyRuntime) (msg : Message) (pre : list Message)
         (part : Message) (post : list Message),
    walk msg = pre ++ part :: post ->
    (forall q, In q pre ->
               pystr_eqb (get_content_type q) (lit "text/html") = false) ->
    pystr_eqb (get_content_type part) (lit "text/html") = true ->
    exists decoded,
      safe_decode (get_payload part) encodings = Returned decoded
      /\ (decoded <> [] ->
          select_body (walk msg) = Returned (Some decoded, false))
      /\ (decoded = [] ->
          forall (pre' : list Message) (plain : Message)
                 (post' : list Message),
            walk msg = pre' ++ plain :: post' ->
            (forall q, In q pre' ->
                       pystr_eqb (get_content_type q) (lit "text/plain")
                       = false) ->
            pystr_eqb (get_content_type plain) (lit "text/plain") = true ->
            exists plain_text,
              safe_decode (get_payload plain) encodings = Returned plain_text
              /\ select_body (walk msg)
                 = Returned (Some (plain_text_document plain_text), true))
      /\ (decoded = [] ->
          (forall q, In q (walk msg) ->
                     pystr_eqb (get_content_type q) (lit "text/plain")
                     = false) ->
          select_body (walk msg) = Returned (Some [], true)).
Proof.
  intros R msg pre part post Hw Hpre Hpart.
  destruct (html_is_leaf part Hpart) as (payload & Hp).
  destruct (safe_decode_total payload encodings) as (decoded & Hd).
  exists decoded. rewrite Hp. split; [exact Hd|].
  assert (Hhtml : find_html (walk msg) = Returned (Some decoded)).
  { rewrite Hw, (find_html_first pre part post Hpre Hpart).
    rewrite Hp, Hd. reflexivity. }
  unfold select_body. rewrite Hhtml. cbn [bind].
  split; [|split].
  - intros Hne. destruct decoded; [congruence|reflexivity].
  - intros -> pre' plain post' Hw' Hpre' Hplain. cbn [truthy negb].
    destruct (safe_decode_part_returns plain (plain_is_leaf plain Hplain))
      as (plain_text & Hpt).
    exists plain_text. split; [exact Hpt|].
    rewrite Hw', (find_plain_first pre' plain post' (Some []) Hpre' Hplain).
    rewrite Hpt. reflexivity.
  - intros -> Hnone. cbn [truthy negb].
    rewrite (find_plain_none (walk msg) (Some []) Hnone). reflexivity.
Qed.

Lemma C3_witness :
  walk msg_empty_html
  = [msg_empty_html]
      ++ Leaf (lit "text/html") None None [] :: [msg_plain_hello]
  /\ pystr_eqb (get_content_type msg_empty_html) (lit "text/html") = false
  /\ pystr_eqb (get_content_type (Leaf (lit "text/html") None None []))
               (lit "text/html") = true
  /\ exists decoded,
      @safe_decode ascii_runtime
        (get_payload (Leaf (lit "text/html") None None [])) encodings
      = Returned decoded
      /\ (decoded <> [] ->
          @select_body ascii_runtime (walk msg_empty_html)
          = Returned (Some decoded, false))
      /\ (decoded = [] ->
          forall (pre' : list Message) (plain : Message)
                 (post' : list Message),
            walk msg_empty_html = pre' ++ plain :: post' ->
            (forall q, In q pre' ->
                       pystr_eqb (get_content_type q) (lit "text/plain")
                       = false) ->
            pystr_eqb (get_content_type plain) (lit "text/plain") = true ->
            exists plain_text,
              @safe_decode ascii_runtime (get_payload plain) encodings
              = Returned plain_text
              /\ @select_body ascii_runtime (walk msg_empty_html)
                 = Returned (Some (plain_text_document plain_text), true))
      /\ (decoded = [] ->
          (forall q, In q (walk msg_empty_html) ->
                     pystr_eqb (get_content_type q) (lit "text/plain")
                     = false) ->
          @select_body ascii_runtime (walk msg_empty_html)
          = Returned (Some [], true)).
Proof.
  split; [reflexivity|]. split; [reflexivity|]. split; [reflexivity|].
  apply (C3_html_part_selected ascii_runtime msg_empty_html
           [msg_empty_html] (Leaf (lit "text/html") None None [])
           [msg_plain_hello]).
  - reflexivity.
  - intros q [<-|[]]. reflexivity.
  - reflexivity.
Defined.

(** C4, as the specification states it, fails twice: the data URI of an
    image that the body does not mention is not in the output; and with the
    key [da], the beginning of every data URI, the body [cid:cid:da] leaves
    [cid:da] in the output. *)
Lemma C4_counterexample :
  (collected_keys (collect_images [] (walk msg_unreferenced)) = [lit "logo"]
   /\ exists out,
       @extract_html_with_embedded_images ascii_runtime msg_unreferenced
       = Returned (Some out)
       /\ contains out (lit "data:image/png;base64,QUJD") = false)
  /\ (collected_keys (collect_images [] (walk msg_key_da)) = [lit "da"]
      /\ exists out,
          @extract_html_with_embedded_images ascii_runtime msg_key_da
          = Returned (Some out)
          /\ contains out (lit "cid:da") = true).
Proof.
  split; (split; [reflexivity|eexists; split; reflexivity]).
Qed.

(** C4 (amended): let a message have a non-empty selected body and let its
    collected images be non-interfering (no [cid:<key>] and no [<key>] of an
    image can overlap the data URI of any image). Then the output is the
    finalized result of the replacements made image after image in the
    order of insertion, [cid:<key>] first and [<key>] second; no collected
    key occurs in the text after the replacements; no [cid:<key>] occurs in
    the output for a key without a newline; and the output contains the data
    URI of each image whose key still occurred in the text when its turn
    came. *)
Theorem C4_substitution :
  forall (R : PyRuntime) (msg : Message) (body : pystr) (flag : bool)
         (imgs : images_dict),
    select_body (walk msg) = Returned (Some body, flag) ->
    body <> [] ->
    collect_images [] (walk msg) = Returned imgs ->
    non_interfering imgs = true ->
    exists out,
      extract_html_with_embedded_images msg = Returned (Some out)
      /\ out = finalize (fold_left substitute_image imgs body)
      /\ forall pre key info post,
          imgs = pre ++ (key, info) :: post ->
          contains (substitute_images body imgs) key = false
          /\ (char_in 10 key = false ->
              contains out (lit "cid:" ++ key) = false)
          /\ (contains (substitute_images body pre) key = true ->
              contains out (data_uri info) = true).
Proof.
  intros R msg body flag imgs Hs Hb Hc Hni.
  exists (finalize (substitute_images body imgs)).
  split; [now apply extract_of_body with (flag := flag)|].
  split; [reflexivity|].
  intros pre key info post Himgs.
  destruct (substitute_images_sound body imgs Hni pre key info post Himgs)
    as [Hgone Huri].
  split; [exact Hgone|]. split.
  - intros Hnl. apply finalize_no_cid; [exact Hnl|].
    destruct (contains (substitute_images body imgs) (lit "cid:" ++ key))
      eqn:E; [|reflexivity].
    apply contains_suffix in E. congruence.
  - intros Hk. apply finalize_contains. now apply Huri.
Qed.

Lemma C4_witness :
  @select_body ascii_runtime (walk msg_logo)
  = Returned (Some (lit "<img src=cid:logo>"), false)
  /\ collect_images [] (walk msg_logo) = Returned [(lit "logo", info_logo)]
  /\ non_interfering [(lit "logo", info_logo)] = true
  /\ exists out,
      @extract_html_with_embedded_images ascii_runtime msg_logo
      = Returned (Some out)
      /\ out = @finalize ascii_runtime
                 (fold_left substitute_image [(lit "logo", info_logo)]
                    (lit "<img src=cid:logo>"))
      /\ forall pre key info post,
          [(lit "logo", info_logo)] = pre ++ (key, info) :: post ->
          contains
            (substitute_images (lit "<img src=cid:logo>")
               [(lit "logo", info_logo)])
            key = false
          /\ (char_in 10 key = false ->
              contains out (lit "cid:" ++ key) = false)
          /\ (contains (substitute_images (lit "<img src=cid:logo>") pre) key
              = true ->
              contains out (data_uri info) = true).
Proof.
  split; [reflexivity|]. split; [reflexivity|]. split; [reflexivity|].
  apply (C4_substitution ascii_runtime msg_logo (lit "<img src=cid:logo>")
           false [(lit "logo", info_logo)]).
  - reflexivity.
  - discriminate.
  - reflexivity.
  - reflexivity.
Defined.

(** C5: [safe_decode] is total on byte sequences: for every byte sequence,
    every list of candidate encodings and every behaviour of the lossy
    decoder it returns a string and does not raise. *)
Theorem C5_safe_decode_total :
  forall (R : PyRuntime) (payload : pybytes) (encodings_to_try : list encoding),
    exists decoded,
      safe_decode (Some payload) encodings_to_try = Returned decoded.
Proof. intros R payload encs. apply safe_decode_total. Qed.

(** C6: the candidates are UTF-8, UTF-8 with signature, Windows-1252,
    Latin-1, ISO-8859-1, ISO-8859-15 and ASCII in this order, and on every
    byte sequence [safe_decode] returns the text of the first candidate in
    this order that decodes the bytes, from the [return] inside the loop,
    all candidates before it having raised [UnicodeDecodeError]. *)
Theorem C6_first_successful_encoding :
  forall (R : PyRuntime),
    encodings
    = [utf_8; utf_8_sig; cp1252; latin_1; iso_8859_1; iso_8859_15; ascii]
    /\ forall payload : pybytes,
      exists pre enc post decoded,
        encodings = pre ++ enc :: post
        /\ (forall e, In e pre ->
                      decode (Some payload) e = Raised UnicodeDecodeError)
        /\ decode (Some payload) enc = Returned decoded
        /\ safe_decode_path (Some payload) encodings
           = Returned (ByCandidate enc, decoded)
        /\ safe_decode (Some payload) encodings = Returned decoded.
Proof.
  intros R. split; [reflexivity|]. intros payload.
  destruct (first_success_latin_1 payload [utf_8; utf_8_sig; cp1252]
              [iso_8859_1; iso_8859_15; ascii])
    as (pre & enc & post & decoded & Heq & Hpre & Hdec & _).
  assert (Hpath : safe_decode_path (Some payload) encodings
                  = Returned (ByCandidate enc, decoded)).
  { change encodings
      with ([utf_8; utf_8_sig; cp1252]
              ++ latin_1 :: [iso_8859_1; iso_8859_15; ascii]).
    rewrite Heq. now apply safe_decode_path_first. }
  exists pre, enc, post, decoded. repeat split; try assumption.
  now apply safe_decode_of_path with (p := ByCandidate enc).
Qed.




(** C9: finalization leaves alone a document that already begins, once
    stripped and put in lower case, with [<!doctype] or [<html], and it is
    idempotent: finalizing twice gives what finalizing once gives, so no
    document is wrapped twice. *)
Theorem C9_finalize_idempotent :
  forall (R : PyRuntime) (html_body : pystr),
    (has_html_opening html_body = true -> finalize html_body = html_body)
    /\ finalize (finalize html_body) = finalize html_body.
Proof.
  intros R html_body. split.
  - apply finalize_fixed.
  - apply finalize_fixed, has_html_opening_finalize.
Qed.

Lemma C9_witness :
  @has_html_opening ascii_runtime (lit "<html><p>hi</p></html>") = true
  /\ @finalize ascii_runtime (lit "<html><p>hi</p></html>")
     = lit "<html><p>hi</p></html>"
  /\ @finalize ascii_runtime
       (@finalize ascii_runtime (lit "<html><p>hi</p></html>"))
     = @finalize ascii_runtime (lit "<html><p>hi</p></html>").
Proof.
  split; [reflexivity|].
  destruct (C9_finalize_idempotent ascii_runtime
              (lit "<html><p>hi</p></html>")) as [Hfixed Hidem].
  split; [apply Hfixed; reflexivity|exact Hidem].
Defined.

(** C10: on every byte sequence [safe_decode] returns from inside the loop
    over the candidates, at [latin_1] or at a candidate before it; the
    lossy UTF-8 decoding of line 47 and the forced Latin-1 decoding of
    line 50 are never reached. *)
Theorem C10_fallbacks_unreachable :
  forall (R : PyRuntime) (payload : pybytes),
    exists enc decoded,
      safe_decode_path (Some payload) encodings
      = Returned (ByCandidate enc, decoded)
      /\ In enc [utf_8; utf_8_sig; cp1252; latin_1].
Proof.
  intros R payload.
  destruct (first_success_latin_1 payload [utf_8; utf_8_sig; cp1252]
              [iso_8859_1; iso_8859_15; ascii])
    as (pre & enc & post & decoded & Heq & Hpre & Hdec & Hin).
  exists enc, decoded. split; [|exact Hin].
  change encodings
    with ([utf_8; utf_8_sig; cp1252]
            ++ latin_1 :: [iso_8859_1; iso_8859_15; ascii]).
  rewrite Heq. now apply safe_decode_path_first.
Qed.

(* ================================================================== *)
(** * Further properties: decoding *)
(* ================================================================== *)

(** With a byte order mark the codec with signature decodes what follows
    it; without one it is the plain codec. *)
Lemma utf_8_sig_decode_cases bs :
  utf_8_sig_decode bs = utf_8_decode bs
  \/ exists rest, bs = xef :: xbb :: xbf :: rest
                  /\ utf_8_sig_decode bs = utf_8_decode rest.
Proof.
  destruct bs as [|b0 [|b1 [|b2 rest]]]; try (left; reflexivity).
  - destruct b0; left; reflexivity.
  - destruct b0; try (left; reflexivity).
    destruct b1; left; reflexivity.
  - destruct b0; try (left; reflexivity).
    destruct b1; try (left; reflexivity).
    destruct b2; try (left; reflexivity).
    right. exists rest. split; reflexivity.
Qed.

(** The byte order mark is the code point U+FEFF for the plain codec. *)
Lemma utf_8_decode_bom rest :
  utf_8_decode (xef :: xbb :: xbf :: rest)
  = option_map (cons 65279%N) (utf_8_decode rest).
Proof. reflexivity. Qed.

(** Where UTF-8 fails, UTF-8 with signature fails. *)
Lemma utf_8_sig_decode_none bs :
  utf_8_decode bs = None -> utf_8_sig_decode bs = None.
Proof.
  intros H. destruct (utf_8_sig_decode_cases bs) as [->|(rest & -> & ->)];
    [exact H|].
  rewrite utf_8_decode_bom in H. destruct (utf_8_decode rest); [discriminate|reflexivity].
Qed.

Lemma option_map_cons_not_nil (c : N) (o : option pystr) :
  option_map (cons c) o <> Some [].
Proof. destruct o; discriminate. Qed.

(** Only the empty byte sequence decodes to the empty text. *)
Lemma utf_8_decode_nil bs : utf_8_decode bs = Some [] -> bs = [].
Proof.
  destruct bs as [|b0 r0]; [reflexivity|]. intros H. exfalso.
  cbn [utf_8_decode] in H. cbv zeta in H.
  repeat match type of H with
         | (if ?c then _ else _) = _ => destruct c
         | match ?l with [] => _ | _ :: _ => _ end = _ => destruct l
         | option_map _ _ = _ => exact (option_map_cons_not_nil _ _ H)
         | None = _ => discriminate H
         end.
Qed.

Lemma charmap_decode_nil table bs :
  charmap_decode table bs = Some [] -> bs = [].
Proof.
  destruct bs as [|b r]; [reflexivity|]. cbn [charmap_decode].
  destruct (table (Byte.to_N b)); [|discriminate].
  intros H. exfalso. exact (option_map_cons_not_nil _ _ H).
Qed.

Section DecodingMore.
Context {R : PyRuntime}.

(** The return of [safe_decode] on the list of the source. *)
Lemma safe_decode_path_encodings bs :
  safe_decode_path (Some bs) encodings
  = Returned
      match utf_8_decode bs with
      | Some decoded => (ByCandidate utf_8, decoded)
      | None =>
          match charmap_decode cp1252_char bs with
          | Some decoded => (ByCandidate cp1252, decoded)
          | None => (ByCandidate latin_1, latin_1_decode bs)
          end
      end.
Proof.
  unfold safe_decode_path, encodings. cbn [try_encodings decode codec_decode].
  destruct (utf_8_decode bs) as [s|] eqn:E8; [reflexivity|].
  rewrite (utf_8_sig_decode_none bs E8).
  destruct (charmap_decode cp1252_char bs) as [s|]; reflexivity.
Qed.

Lemma safe_decode_encodings bs :
  safe_decode (Some bs) encodings
  = Returned
      match utf_8_decode bs with
      | Some decoded => decoded
      | None =>
          match charmap_decode cp1252_char bs with
          | Some decoded => decoded
          | None => latin_1_decode bs
          end
      end.
Proof.
  unfold safe_decode. rewrite safe_decode_path_encodings. cbn [bind].
  destruct (utf_8_decode bs); [reflexivity|].
  destruct (charmap_decode cp1252_char bs); reflexivity.
Qed.

End DecodingMore.

(** X2: of the seven candidates only UTF-8, Windows-1252 and Latin-1 ever
    produce the result of [safe_decode]: valid UTF-8 is decoded as UTF-8,
    other bytes as Windows-1252 unless one of them is undefined there, and
    the rest as Latin-1. *)
Theorem safe_decode_three_candidates :
  forall (R : PyRuntime) (payload : pybytes),
    safe_decode_path (Some payload) encodings
    = Returned
        match utf_8_decode payload with
        | Some decoded => (ByCandidate utf_8, decoded)
        | None =>
            match charmap_decode cp1252_char payload with
            | Some decoded => (ByCandidate cp1252, decoded)
            | None => (ByCandidate latin_1, latin_1_decode payload)
            end
        end.
Proof. intros R payload. apply safe_decode_path_encodings. Qed.

(** X3: a UTF-8 byte order mark is kept: [utf-8] stands before [utf-8-sig],
    so a payload that is a mark followed by valid UTF-8 decodes to U+FEFF
    followed by the text. *)
Theorem safe_decode_keeps_bom :
  forall (R : PyRuntime) (rest : pybytes) (text : pystr),
    utf_8_decode rest = Some text ->
    safe_decode (Some (xef :: xbb :: xbf :: rest)) encodings
    = Returned (65279%N :: text).
Proof.
  intros R rest text H.
  rewrite safe_decode_encodings, utf_8_decode_bom, H. reflexivity.
Qed.

Lemma safe_decode_keeps_bom_witness :
  utf_8_decode (bytes_of "<html>") = Some (lit "<html>")
  /\ @safe_decode ascii_runtime
       (Some (xef :: xbb :: xbf :: bytes_of "<html>")) encodings
     = Returned (65279%N :: lit "<html>").
Proof.
  split; [reflexivity|].
  apply (safe_decode_keeps_bom ascii_runtime); reflexivity.
Defined.

(** Only the empty payload gives the empty string. *)
Lemma safe_decode_empty_payload :
  forall (R : PyRuntime) (payload : pybytes),
    safe_decode (Some payload) encodings = Returned [] <-> payload = [].
Proof.
  intros R payload. rewrite safe_decode_encodings. split.
  - intros [= H].
    destruct (utf_8_decode payload) eqn:E8.
    + subst. now apply utf_8_decode_nil.
    + destruct (charmap_decode cp1252_char payload) eqn:E1252.
      * subst. now apply charmap_decode_nil in E1252.
      * destruct payload; [reflexivity|discriminate].
  - intros ->. reflexivity.
Qed.

(** X4: [safe_decode] gives the empty string for the empty payload and for
    no other. *)
Theorem safe_decode_empty_iff :
  forall (R : PyRuntime) (payload : pybytes),
    safe_decode (Some payload) encodings = Returned [] <-> payload = [].
Proof. intros R payload. apply safe_decode_empty_payload. Qed.

(* ================================================================== *)
(** * Further properties: the extraction *)
(* ================================================================== *)

Section Outcome.
Context {R : PyRuntime}.


(** The second loop never raises, and it finds a [text/plain] part. *)
Lemma find_plain_returns parts html_body :
  exists html_body', find_plain parts html_body = Returned html_body'.
Proof.
  induction parts as [|p parts IH]; [now exists html_body|].
  cbn [find_plain].
  destruct (pystr_eqb (get_content_type p) (lit "text/plain")) eqn:E;
    [|exact IH].
  destruct (safe_decode_part_returns p (plain_is_leaf p E)) as (text & ->).
  now exists (Some (plain_text_document text)).
Qed.

Lemma find_plain_some parts html_body :
  existsb (fun part => pystr_eqb (get_content_type part) (lit "text/plain"))
          parts = true ->
  exists text, find_plain parts html_body
               = Returned (Some (plain_text_document text)).
Proof.
  induction parts as [|p parts IH]; [discriminate|].
  cbn [existsb find_plain].
  destruct (pystr_eqb (get_content_type p) (lit "text/plain")) eqn:E.
  - intros _.
    destruct (safe_decode_part_returns p (plain_is_leaf p E)) as (text & ->).
    now exists text.
  - exact IH.
Qed.

Lemma find_html_some parts :
  existsb (fun part => pystr_eqb (get_content_type part) (lit "text/html"))
          parts = true ->
  exists text, find_html parts = Returned (Some text).
Proof.
  induction parts as [|p parts IH]; [discriminate|].
  cbn [existsb find_html].
  destruct (pystr_eqb (get_content_type p) (lit "text/html")) eqn:E.
  - intros _.
    destruct (safe_decode_part_returns p (html_is_leaf p E)) as (text & ->).
    now exists text.
  - exact IH.
Qed.

Lemma existsb_orb {A} (f g : A -> bool) l :
  existsb (fun x => f x || g x) l = existsb f l || existsb g l.
Proof.
  induction l as [|x l IH]; [reflexivity|]. cbn [existsb]. rewrite IH.
  destruct (f x), (g x), (existsb f l), (existsb g l); reflexivity.
Qed.

Lemma existsb_false_forall {A} (f : A -> bool) l :
  existsb f l = false -> forall x, In x l -> f x = false.
Proof.
  intros H x Hx. destruct (f x) eqn:E; [|reflexivity].
  assert (existsb f l = true) by (apply existsb_exists; now exists x).
  congruence.
Qed.

(** With a text part there is a body. *)
Lemma select_body_some parts :
  existsb (fun part =>
             pystr_eqb (get_content_type part) (lit "text/html")
             || pystr_eqb (get_content_type part) (lit "text/plain"))
          parts = true ->
  exists body flag, select_body parts = Returned (Some body, flag).
Proof.
  rewrite existsb_orb. intros H. unfold select_body.
  assert (Hplain : forall html_body,
             exists hb, find_plain parts (Some html_body) = Returned (Some hb)).
  { intros html_body.
    destruct (existsb (fun part => pystr_eqb (get_content_type part)
                                             (lit "text/plain")) parts)
      eqn:Ep.
    - destruct (find_plain_some parts (Some html_body) Ep) as (t & Ht).
      now exists (plain_text_document t).
    - exists html_body. apply find_plain_none.
      apply existsb_false_forall. exact Ep. }
  destruct (existsb (fun part => pystr_eqb (get_content_type part)
                                           (lit "text/html")) parts) eqn:Eh.
  - destruct (find_html_some parts Eh) as (text & ->). cbn [bind].
    destruct text as [|c text]; cbn [truthy negb].
    + destruct (Hplain []) as (hb & Hhb).
      exists hb, true.
      etransitivity; [|exact (f_equal (fun r => x <- r ;; Returned (x, true)) Hhb)].
      reflexivity.
    + now eexists _, _.
  - cbn [orb] in H.
    rewrite find_html_none by (apply existsb_false_forall; exact Eh).
    cbn [bind truthy negb].
    destruct (find_plain_some parts None H) as (t & ->). cbn [bind].
    now eexists _, _.
Qed.

Lemma finalize_nonempty html_body : finalize html_body <> [].
Proof.
  intros E. pose proof (has_html_opening_finalize html_body) as H.
  rewrite E in H. discriminate H.
Qed.

(** The selection never raises, and it leaves [None] exactly when the
    message has no text part. *)
Lemma select_body_outcome msg :
  exists selected,
    select_body (walk msg) = Returned selected
    /\ (fst selected = None <-> has_text_part msg = false).
Proof.
  unfold has_text_part.
  destruct (existsb _ (walk msg)) eqn:E.
  - destruct (select_body_some (walk msg) E) as (body & flag & Hs).
    exists (Some body, flag). split; [exact Hs|].
    cbn [fst]. split; discriminate.
  - exists (None, true). split; [|now split].
    assert (Hno : forall q, In q (walk msg) ->
                 pystr_eqb (get_content_type q) (lit "text/html") = false
                 /\ pystr_eqb (get_content_type q) (lit "text/plain") = false).
    { intros q Hq.
      pose proof (existsb_false_forall _ _ E q Hq) as Hf. cbv beta in Hf.
      now apply orb_false_iff in Hf. }
    unfold select_body.
    rewrite find_html_none by (intros q Hq; apply (Hno q Hq)).
    cbn [bind truthy negb].
    rewrite find_plain_none by (intros q Hq; apply (Hno q Hq)).
    reflexivity.
Qed.


(** The outcome of the extraction, from the selected body and the parts. *)
Lemma extract_outcome msg selected :
  select_body (walk msg) = Returned selected ->
  if match fst selected with None => true | Some _ => false end
     || (truthy (fst selected) && has_header_image (walk msg))
  then extract_html_with_embedded_images msg = Raised AttributeError
  else exists out,
      extract_html_with_embedded_images msg = Returned (Some out)
      /\ out <> [].
Proof.
  intros Hs. unfold extract_html_with_embedded_images.
  rewrite Hs. cbn [bind].
  destruct selected as [[[|c body]|] flag]; cbn [fst truthy orb andb bind].
  - eexists. split; [reflexivity|apply finalize_nonempty].
  - destruct (has_header_image (walk msg)) eqn:Eh.
    + now rewrite (collect_images_raises (walk msg) [] Eh).
    + destruct (collect_images_returns (walk msg) [] Eh) as (imgs & ->).
      cbn [bind option_map].
      eexists. split; [reflexivity|apply finalize_nonempty].
  - reflexivity.
Qed.

(** A message without a text part gives the error of line 118. *)
Lemma extract_no_text_part msg :
  has_text_part msg = false ->
  extract_html_with_embedded_images msg = Raised AttributeError.
Proof.
  intros Hno.
  destruct (select_body_outcome msg) as (selected & Hs & Hnone).
  pose proof (extract_outcome msg selected Hs) as H.
  destruct Hnone as [_ Hnone]. now rewrite (Hnone Hno) in H.
Qed.


(** What the extraction returns is a document that is not empty. *)
Lemma extract_returns_nonempty msg r :
  extract_html_with_embedded_images msg = Returned r ->
  exists out, r = Some out /\ out <> [].
Proof.
  intros H. destruct r as [out|].
  - exists out. split; [reflexivity|].
    destruct (extract_returned msg out H)
      as (body & flag & _ & [[_ ->]|(_ & imgs & _ & ->)]);
      apply finalize_nonempty.
  - unfold extract_html_with_embedded_images in H.
    destruct (select_body (walk msg)) as [[html_body flag]|e];
      cbn [bind fst] in H; [|discriminate].
    destruct html_body as [[|c body]|]; cbn [truthy bind] in H;
      try discriminate.
    destruct (collect_images [] (walk msg)); cbn [bind option_map] in H;
      discriminate.
Qed.

End Outcome.

Section Dict.

Lemma pystr_eqb_neq a b : pystr_eqb a b = false -> a <> b.
Proof. intros H ->. now rewrite pystr_eqb_refl in H. Qed.

(** Setting a key that is there changes no key; setting another one adds
    it at the end. *)
Lemma dict_set_keys d key value :
  map fst (dict_set d key value)
  = if existsb (fun k => pystr_eqb k key) (map fst d)
    then map fst d
    else map fst d ++ [key].
Proof.
  induction d as [|[k v] d IH]; [reflexivity|].
  cbn [dict_set map fst existsb].
  destruct (pystr_eqb k key) eqn:E; [reflexivity|].
  cbn [orb map fst]. rewrite IH.
  destruct (existsb (fun k0 => pystr_eqb k0 key) (map fst d)); reflexivity.
Qed.

Lemma dict_set_NoDup d key value :
  NoDup (map fst d) -> NoDup (map fst (dict_set d key value)).
Proof.
  intros H. rewrite dict_set_keys.
  destruct (existsb (fun k => pystr_eqb k key) (map fst d)) eqn:E;
    [exact H|].
  apply NoDup_app; [exact H|repeat constructor; intros []|].
  intros k Hk [Hkey|[]]. subst k.
  assert (existsb (fun k0 => pystr_eqb k0 key) (map fst d) = true).
  { apply existsb_exists. exists key. split; [exact Hk|apply pystr_eqb_refl]. }
  congruence.
Qed.

Lemma dict_set_Forall (P : pystr * image_info -> Prop) d key value :
  Forall P d -> P (key, value) -> Forall P (dict_set d key value).
Proof.
  intros Hd Hv. induction d as [|[k v] d IH]; cbn [dict_set].
  - now constructor.
  - inversion Hd as [|x l Hx Hl]; subst.
    destruct (pystr_eqb k key) eqn:E.
    + apply pystr_eqb_eq in E. subst k. now constructor.
    + constructor; [exact Hx|now apply IH].
Qed.

End Dict.

Section Invariant.

Lemma img_key_of_nonempty content_id filename d :
  img_key_of content_id filename d <> [].
Proof.
  unfold img_key_of. destruct content_id as [|c cid]; cbn [truthy].
  - destruct filename as [[|c f]|]; cbn [truthy]; discriminate.
  - discriminate.
Qed.

Lemma filename_or_nonempty filename img_key :
  img_key <> [] -> filename_or filename img_key <> [].
Proof.
  intros H. unfold filename_or.
  destruct filename as [[|c f]|]; cbn [truthy]; try exact H. discriminate.
Qed.

Lemma entry_of_image_incl parts parts' item :
  (forall p, In p parts -> In p parts') ->
  entry_of_image parts item -> entry_of_image parts' item.
Proof.
  intros Hincl (H1 & H2 & part & payload & Hin & H).
  repeat split; try assumption. exists part, payload. split; [auto|exact H].
Qed.

(** What the loop keeps true of the dictionary. *)
Lemma collect_images_invariant all parts :
  (forall p, In p parts -> In p all) ->
  forall d d',
    collect_images d parts = Returned d' ->
    NoDup (map fst d) -> Forall (entry_of_image all) d ->
    NoDup (map fst d')
    /\ Forall (entry_of_image all) d'
    /\ List.length d' <= List.length d + count_images parts.
Proof.
  induction parts as [|p parts IH]; intros Hincl d d' H Hnd Hall.
  - cbn [collect_images] in H. injection H as <-.
    repeat split; try assumption. lia.
  - cbn [collect_images] in H. rewrite count_images_cons.
    destruct (collect_image_cases d p)
      as [[E Hstep]|[(payload & value & E & Hp & _ & _ & Hstep)|[_ Hstep]]];
      rewrite Hstep in H; cbn [bind] in H; [| |discriminate]; rewrite E.
    + destruct (IH (fun q Hq => Hincl q (or_intror Hq)) _ _ H Hnd Hall)
        as (I1 & I2 & I3).
      repeat split; try assumption.
    + match type of H with
      | collect_images (dict_set d ?k ?v) parts = _ =>
          assert (Hentry : entry_of_image all (k, v));
          [|pose proof (dict_set_length d k v) as Hlen;
            destruct (IH (fun q Hq => Hincl q (or_intror Hq)) _ _ H
                         (dict_set_NoDup d k v Hnd)
                         (dict_set_Forall _ d k v Hall Hentry))
              as (I1 & I2 & I3)]
      end.
      * split; [apply img_key_of_nonempty|].
        split; [apply filename_or_nonempty, img_key_of_nonempty|].
        exists p, payload. cbn [fst snd data mime_type].
        repeat split; try assumption. apply Hincl. now left.
      * repeat split; try assumption. lia.
Qed.

End Invariant.


Section Unreferenced.

(** An image whose key is not in the text changes nothing. *)
Lemma substitute_image_absent body key info :
  key <> [] -> contains body key = false ->
  substitute_image body (key, info) = body.
Proof.
  intros Hkey H. cbn [substitute_image].
  assert (Hcid : contains body (lit "cid:" ++ key) = false).
  { destruct (contains body (lit "cid:" ++ key)) eqn:E; [|reflexivity].
    apply contains_suffix in E. congruence. }
  rewrite (replace_absent _ (data_uri info) (cid_key_nonempty key) _ Hcid).
  now apply replace_absent.
Qed.

Lemma substitute_images_absent body imgs :
  Forall (fun item => fst item <> []) imgs ->
  forallb (fun item => negb (contains body (fst item))) imgs = true ->
  substitute_images body imgs = body.
Proof.
  induction imgs as [|[key info] imgs IH]; intros Hk H; [reflexivity|].
  inversion Hk as [|x l Hx Hl]; subst.
  cbn [forallb fst] in H. apply andb_true_iff in H as [H1 H2].
  apply negb_true_iff in H1.
  cbn [substitute_images fold_left].
  rewrite (substitute_image_absent body key info Hx H1).
  now apply IH.
Qed.

End Unreferenced.

(** X6: images that the body does not mention leave it as it is: when no
    collected key occurs in the selected body, the output is the finalized
    body. *)
Theorem unreferenced_images_change_nothing :
  forall (R : PyRuntime) (msg : Message) (body : pystr) (flag : bool)
         (imgs : images_dict),
    select_body (walk msg) = Returned (Some body, flag) ->
    body <> [] ->
    collect_images [] (walk msg) = Returned imgs ->
    forallb (fun item => negb (contains body (fst item))) imgs = true ->
    extract_html_with_embedded_images msg
    = Returned (Some (finalize body)).
Proof.
  intros R msg body flag imgs Hs Hb Hc Habs.
  rewrite (extract_of_body msg body flag imgs Hs Hb Hc).
  rewrite substitute_images_absent; [reflexivity| |exact Habs].
  destruct (collect_images_invariant (walk msg) (walk msg) (fun p H => H)
              [] imgs Hc (NoDup_nil _) (Forall_nil _)) as (_ & Hall & _).
  eapply Forall_impl; [|exact Hall]. intros item Hitem. apply Hitem.
Qed.

Lemma unreferenced_images_change_nothing_witness :
  @select_body ascii_runtime (walk msg_unreferenced)
  = Returned (Some (lit "<p>hi</p>"), false)
  /\ collect_images [] (walk msg_unreferenced)
     = Returned [(lit "logo",
                  {| data := lit "QUJD"; mime_type := lit "image/png";
                     info_filename := lit "logo" |})]
  /\ @extract_html_with_embedded_images ascii_runtime msg_unreferenced
     = Returned (Some (@finalize ascii_runtime (lit "<p>hi</p>"))).
Proof.
  split; [reflexivity|]. split; [reflexivity|].
  apply (unreferenced_images_change_nothing ascii_runtime msg_unreferenced
           (lit "<p>hi</p>") false
           [(lit "logo",
             {| data := lit "QUJD"; mime_type := lit "image/png";
                info_filename := lit "logo" |})]).
  - reflexivity.
  - discriminate.
  - reflexivity.
  - reflexivity.
Defined.

Section PlainOnly.
Context {R : PyRuntime}.

(** The document built around a plain text passes the test of line 118. *)
Lemma has_html_opening_plain_text_document plain_text :
  has_html_opening (plain_text_document plain_text) = true.
Proof.
  unfold has_html_opening, lower, strip, strip_with.
  assert (H : lstrip_with isspace (plain_text_document plain_text)
              = lit "<!DOCTYPE"
                    ++ skipn 9 (lstrip_with isspace
                                  (plain_text_document plain_text)))
    by reflexivity.
  rewrite H. clear H.
  change (lit "<!DOCTYPE") with [60; 33; 68; 79; 67; 84; 89; 80; 69]%N.
  cbn [app]. rewrite !rstrip_with_cons by reflexivity.
  change (60 :: 33 :: 68 :: 79 :: 67 :: 84 :: 89 :: 80 :: 69 :: ?r)%N
    with (lit "<!DOCTYPE" ++ r).
  rewrite lower_from_ascii_prefix by reflexivity.
  change (map ascii_lower (lit "<!DOCTYPE")) with (lit "<!doctype").
  now rewrite startswith_app.
Qed.

Lemma collect_images_no_image parts d :
  (forall q, In q parts ->
             pystr_eqb (get_content_maintype q) (lit "image") = false) ->
  collect_images d parts = Returned d.
Proof.
  induction parts as [|p parts IH]; intros H; [reflexivity|].
  cbn [collect_images].
  rewrite (collect_image_other d p (H p (or_introl eq_refl))). cbn [bind].
  apply IH. intros q Hq. apply H. now right.
Qed.

End PlainOnly.

(** X7: a message with a [text/plain] part, without [text/html] part and
    without image part gives the document of lines 73-83 around the decoded
    text of its first [text/plain] part, and nothing more: this document is
    not wrapped a second time. *)
Theorem plain_text_message_document :
  forall (R : PyRuntime) (msg : Message) (pre : list Message)
         (part : Message) (post : list Message),
    walk msg = pre ++ part :: post ->
    (forall q, In q (walk msg) ->
               pystr_eqb (get_content_type q) (lit "text/html") = false
               /\ pystr_eqb (get_content_maintype q) (lit "image") = false) ->
    (forall q, In q pre ->
               pystr_eqb (get_content_type q) (lit "text/plain") = false) ->
    pystr_eqb (get_content_type part) (lit "text/plain") = true ->
    exists plain_text,
      safe_decode (get_payload part) encodings = Returned plain_text
      /\ extract_html_with_embedded_images msg
         = Returned (Some (plain_text_document plain_text)).
Proof.
  intros R msg pre part post Hw Hall Hpre Hpart.
  destruct (safe_decode_part_returns part (plain_is_leaf part Hpart))
    as (text & Ht).
  exists text. split; [exact Ht|].
  unfold extract_html_with_embedded_images, select_body.
  rewrite find_html_none by (intros q Hq; apply Hall, Hq).
  cbn [bind truthy negb]. rewrite Hw at 1.
  rewrite (find_plain_first pre part post None Hpre Hpart), Ht.
  cbn [bind fst].
  change (truthy (Some (plain_text_document text))) with true. cbv iota.
  rewrite collect_images_no_image by (intros q Hq; apply Hall, Hq).
  cbn [bind option_map substitute_images fold_left].
  now rewrite (finalize_fixed _ (has_html_opening_plain_text_document text)).
Qed.

Lemma plain_text_message_document_witness :
  walk msg_plain_hello = [] ++ msg_plain_hello :: []
  /\ pystr_eqb (get_content_type msg_plain_hello) (lit "text/plain") = true
  /\ exists plain_text,
      @safe_decode ascii_runtime (get_payload msg_plain_hello) encodings
      = Returned plain_text
      /\ @extract_html_with_embedded_images ascii_runtime msg_plain_hello
         = Returned (Some (plain_text_document plain_text)).
Proof.
  split; [reflexivity|]. split; [reflexivity|].
  apply (plain_text_message_document ascii_runtime msg_plain_hello []
           msg_plain_hello []).
  - reflexivity.
  - intros q [<-|[]]. split; reflexivity.
  - intros q [].
  - reflexivity.
Defined.


Section HandlerFacts.
Context {R : PyRuntime} {W : Collaborators}.

(** What the extraction returns is true for [if html_body:]. *)
Lemma extract_truthy msg html_body :
  extract_html_with_embedded_images msg = Returned html_body ->
  truthy html_body = true.
Proof.
  intros H.
  destruct (extract_returns_nonempty msg html_body H) as (out & -> & Hne).
  destruct out; [congruence|reflexivity].
Qed.

End HandlerFacts.

(** X8: [lambda_handler] never answers 404: whatever the collaborators do,
    a response that it returns has the status 200 or 500. The branch of
    lines 195-200 is never taken, because the extraction returns nothing
    that is false for [if html_body:]. *)
Theorem lambda_handler_never_404 :
  forall (R : PyRuntime) (W : Collaborators) (event : option s3_record)
         (r : response),
    lambda_handler event = Done (Some r) ->
    statusCode r = 200 \/ statusCode r = 500.
Proof.
  intros R W event r. unfold lambda_handler.
  destruct event as [file_obj|]; [|discriminate].
  destruct (get_object _ _) as [raw|e]; cbn [run_bind]; [|discriminate].
  destruct (email_from_of (header_from raw)) as [email_from|e];
    cbn [run_bind]; [|discriminate].
  destruct (extract_html_with_embedded_images (message_from_bytes raw))
    as [html_body|e] eqn:E; cbn [of_core run_bind]; [|discriminate].
  rewrite (extract_truthy _ _ E).
  destruct (environ_get environ "target_bucket") as [tb|e];
    cbn [run_bind]; [|discriminate].
  destruct (put_object _ _ _); intros [= <-]; cbn [statusCode]; auto.
Qed.

Lemma lambda_handler_never_404_witness :
  @lambda_handler ascii_runtime (sample_collaborators msg_plain_hello)
    (Some sample_event)
  = Done (Some {| statusCode := 200;
                  body := lit "HTML body processed successfully." |})
  /\ (statusCode {| statusCode := 200;
                    body := lit "HTML body processed successfully." |} = 200
      \/ statusCode {| statusCode := 200;
                       body := lit "HTML body processed successfully." |}
         = 500).
Proof.
  split; [reflexivity|].
  exact (lambda_handler_never_404 ascii_runtime
           (sample_collaborators msg_plain_hello) (Some sample_event)
           {| statusCode := 200;
              body := lit "HTML body processed successfully." |} eq_refl).
Defined.

(** X9: for a stored message without [text/html] and [text/plain] part,
    once the object is read and the sender extracted, [lambda_handler]
    raises the [AttributeError] of the extraction: it does not answer and
    stores nothing. *)
Theorem lambda_handler_no_body_raises :
  forall (R : PyRuntime) (W : Collaborators) (file_obj : s3_record)
         (raw : pybytes) (email_from : pystr),
    get_object (s3_bucket_name file_obj)
               (unquote_plus (s3_object_key file_obj)) = Done raw ->
    email_from_of (header_from raw) = Done email_from ->
    has_text_part (message_from_bytes raw) = false ->
    lambda_handler (Some file_obj) = Failed (CoreError AttributeError).
Proof.
  intros R W file_obj raw email_from Hget Hfrom Hno.
  unfold lambda_handler. rewrite Hget. cbn [run_bind]. rewrite Hfrom.
  cbn [run_bind].
  rewrite (extract_no_text_part (message_from_bytes raw) Hno). reflexivity.
Qed.

Lemma lambda_handler_no_body_raises_witness :
  @has_text_part msg_attachment_only = false
  /\ @lambda_handler ascii_runtime (sample_collaborators msg_attachment_only)
       (Some sample_event)
     = Failed (CoreError AttributeError).
Proof.
  split; [reflexivity|].
  apply (lambda_handler_no_body_raises ascii_runtime
           (sample_collaborators msg_attachment_only) sample_event []
           (lit "jane@example.com")); reflexivity.
Defined.



(* ================================================================== *)
(** * Further properties: [SQS-Bitacoras.py] *)
(* ================================================================== *)

Section Split.
Variable sep : N.

(** The pieces of a split: there is one at least; there is one only when
    the text has no separator; the last one has no separator and is what
    follows the last separator. *)
Lemma split_char_spec s :
  exists piece pieces,
    split_char sep s = piece :: pieces
    /\ (pieces = [] -> char_in sep s = false /\ piece = s)
    /\ (pieces <> [] -> char_in sep s = true)
    /\ char_in sep (last (piece :: pieces) []) = false
    /\ (char_in sep s = true ->
        exists prefix, s = prefix ++ sep :: last (piece :: pieces) []).
Proof.
  induction s as [|c s (piece & pieces & Hs & H1 & H2 & H3 & H4)].
  - exists [], []. repeat split; try reflexivity; try discriminate.
    congruence.
  - cbn [split_char]. unfold char_in in *. cbn [existsb].
    rewrite (N.eqb_sym sep c).
    destruct (c =? sep)%N eqn:E.
    + apply N.eqb_eq in E. subst c. rewrite Hs.
      exists [], (piece :: pieces).
      split; [reflexivity|]. split; [discriminate|].
      split; [reflexivity|].
      split; [exact H3|]. intros _.
      destruct (existsb (N.eqb sep) s) eqn:Es.
      * destruct (H4 eq_refl) as (prefix & Hp).
        exists (sep :: prefix). cbn [app]. now f_equal.
      * destruct pieces as [|p ps].
        -- destruct (H1 eq_refl) as [_ ->]. now exists [].
        -- assert (true = false) by (rewrite <- H2; [reflexivity|discriminate]).
           discriminate.
    + rewrite Hs. exists (c :: piece), pieces. cbn [orb].
      split; [reflexivity|].
      split; [intros ->; destruct (H1 eq_refl) as [-> ->]; now split|].
      split; [exact H2|].
      destruct pieces as [|p ps].
      * destruct (H1 eq_refl) as [Hno ->]. cbn [last existsb] in *.
        rewrite (N.eqb_sym sep c), E, Hno.
        split; [reflexivity|discriminate].
      * change (last ((c :: piece) :: p :: ps) []) with (last (p :: ps) []).
        change (last (piece :: p :: ps) []) with (last (p :: ps) []) in *.
        split; [exact H3|]. intros Hin.
        destruct (H4 Hin) as (prefix & Hp).
        exists (c :: prefix). cbn [app]. now f_equal.
Qed.

Lemma last_split_char_no_sep s :
  char_in sep s = false -> last (split_char sep s) [] = s.
Proof.
  intros H. destruct (split_char_spec s) as (piece & pieces & Hs & H1 & H2 & _).
  rewrite Hs. destruct pieces as [|p ps].
  - now destruct (H1 eq_refl) as [_ ->].
  - rewrite H2 in H; [discriminate|discriminate].
Qed.

Lemma char_in_app c a b : char_in c (a ++ b) = char_in c a || char_in c b.
Proof. unfold char_in. apply existsb_app. Qed.

(** What follows a separator decides the last piece. *)
Lemma last_split_char_app a b :
  last (split_char sep (a ++ sep :: b)) [] = last (split_char sep b) [].
Proof.
  induction a as [|c a IH]; cbn [app split_char].
  - rewrite N.eqb_refl.
    destruct (split_char_spec b) as (piece & pieces & -> & _). reflexivity.
  - destruct (split_char_spec (a ++ sep :: b))
      as (piece & pieces & Hs & _ & H2 & _).
    destruct (split_char_spec b) as (pb & psb & Hb & _).
    rewrite Hs in IH |- *.
    destruct (c =? sep)%N; [exact IH|].
    destruct pieces as [|p ps]; [|exact IH].
    exfalso.
    assert (Hin : char_in sep (a ++ sep :: b) = true).
    { rewrite char_in_app. unfold char_in at 2. cbn [existsb].
      rewrite N.eqb_refl. apply orb_true_r. }
    destruct (split_char_spec (a ++ sep :: b))
      as (piece' & pieces' & Hs' & H1' & _).
    rewrite Hs in Hs'. injection Hs' as <- <-.
    destruct (H1' eq_refl) as [Hno _]. congruence.
Qed.

End Split.

(** X11: the extension of line 129 is what follows the last dot of the key:
    it holds no dot, and the key is the extension itself when it has no dot
    and a prefix, a dot and the extension otherwise. *)
Theorem extension_of_last_dot :
  forall file_key_original : pystr,
    char_in 46 (extension_of file_key_original) = false
    /\ (if char_in 46 file_key_original
        then exists prefix,
            file_key_original
            = prefix ++ lit "." ++ extension_of file_key_original
        else extension_of file_key_original = file_key_original).
Proof.
  intros key. unfold extension_of.
  destruct (split_char_spec 46 key) as (piece & pieces & Hs & H1 & H2 & H3 & H4).
  rewrite Hs. split; [exact H3|].
  destruct (char_in 46 key) eqn:E.
  - destruct (H4 eq_refl) as (prefix & Hp). now exists prefix.
  - rewrite <- Hs. now apply last_split_char_no_sep.
Qed.

Section Extension.
Context {R : PyRuntime}.

Lemma lower_ascii s : is_ascii_text s = true -> lower s = map ascii_lower s.
Proof.
  intros H. unfold lower.
  rewrite <- (app_nil_r s) at 1.
  rewrite (lower_from_ascii_prefix s [] [] H). apply app_nil_r.
Qed.

Lemma ascii_lower_dot c : (ascii_lower c =? 46)%N = (c =? 46)%N.
Proof.
  unfold ascii_lower.
  destruct ((65 <=? c) && (c <=? 90))%N eqn:E; [|reflexivity].
  apply andb_true_iff in E as [E1 E2].
  apply N.leb_le in E1. apply N.leb_le in E2.
  destruct (c =? 46)%N eqn:Ec.
  - apply N.eqb_eq in Ec. lia.
  - apply N.eqb_neq. lia.
Qed.

Lemma char_in_dot_lower s : char_in 46 (map ascii_lower s) = char_in 46 s.
Proof.
  unfold char_in. induction s as [|c s IH]; [reflexivity|].
  cbn [map existsb]. rewrite IH. f_equal.
  rewrite (N.eqb_sym 46 (ascii_lower c)), (N.eqb_sym 46 c).
  apply ascii_lower_dot.
Qed.

Lemma allowed_extensions_no_dot e :
  In e allowed_extensions -> char_in 46 e = false.
Proof.
  unfold allowed_extensions. cbn [In].
  intros H. repeat (destruct H as [<-|H]; [reflexivity|]). destruct H.
Qed.

Lemma extension_allowed_In extension :
  In (lower extension) allowed_extensions ->
  extension_allowed extension = true.
Proof.
  intros H. unfold extension_allowed. apply existsb_exists.
  exists (lower extension). split; [exact H|apply pystr_eqb_refl].
Qed.

Lemma extension_of_app prefix extension :
  char_in 46 extension = false ->
  extension_of (prefix ++ lit "." ++ extension) = extension.
Proof.
  intros H. unfold extension_of. change (lit "." ++ extension) with (46%N :: extension).
  rewrite last_split_char_app. now apply last_split_char_no_sep.
Qed.

End Extension.

(** A key that ends with a dot and an allowed extension in any case. *)
Lemma extension_allowed_any_case :
  forall (R : PyRuntime) (prefix extension : pystr),
    is_ascii_text extension = true ->
    In (map ascii_lower extension) allowed_extensions ->
    extension_of (prefix ++ lit "." ++ extension) = extension
    /\ extension_allowed (extension_of (prefix ++ lit "." ++ extension))
       = true.
Proof.
  intros R prefix extension Hascii Hin.
  assert (Hdot : char_in 46 extension = false).
  { rewrite <- char_in_dot_lower. now apply allowed_extensions_no_dot. }
  rewrite (extension_of_app prefix extension Hdot).
  split; [reflexivity|].
  apply extension_allowed_In. now rewrite (lower_ascii extension Hascii).
Qed.

(** X12: the test of the extension does not look at the case of ASCII
    letters nor at what stands before the last dot: a key that ends with a
    dot and one of the nine extensions, in any mix of upper and lower case,
    is accepted. *)
Theorem allowed_extension_any_case :
  forall (R : PyRuntime) (prefix extension : pystr),
    is_ascii_text extension = true ->
    In (map ascii_lower extension) allowed_extensions ->
    extension_of (prefix ++ lit "." ++ extension) = extension
    /\ extension_allowed (extension_of (prefix ++ lit "." ++ extension))
       = true.
Proof. intros R prefix extension. apply extension_allowed_any_case. Qed.

Lemma allowed_extension_any_case_witness :
  is_ascii_text (lit "PDF") = true
  /\ In (map ascii_lower (lit "PDF")) allowed_extensions
  /\ extension_of (lit "inbox/Report.v2" ++ lit "." ++ lit "PDF") = lit "PDF"
  /\ @extension_allowed ascii_runtime
       (extension_of (lit "inbox/Report.v2" ++ lit "." ++ lit "PDF")) = true.
Proof.
  assert (Hin : In (map ascii_lower (lit "PDF")) allowed_extensions)
    by (do 4 right; left; reflexivity).
  split; [reflexivity|]. split; [exact Hin|].
  exact (allowed_extension_any_case ascii_runtime (lit "inbox/Report.v2")
           (lit "PDF") eq_refl Hin).
Defined.

Section SendEmail.
Context {R : PyRuntime}.

Lemma environ_get_set environ name :
  (exists value, environ name = Some value) ->
  exists value, environ_get environ name = Done value.
Proof. intros (value & H). exists value. unfold environ_get. now rewrite H. Qed.

Lemma smtp_environ_set_get environ name :
  smtp_environ_set environ = true ->
  In name ["smtp_server"; "smtp_port"; "smtp_user"; "smtp_password";
           "sender_name"; "cc_email"]%string ->
  exists value, environ_get environ name = Done value.
Proof.
  unfold smtp_environ_set. rewrite forallb_forall. intros H Hin.
  specialize (H name Hin). apply environ_get_set.
  destruct (environ name) as [v|]; [now exists v|discriminate].
Qed.

(** [send_email] once its six variables are read. *)
Lemma send_email_with_environ environ open_file recipient_email
      temp_file_path bucket_key summary :
  smtp_environ_set environ = true ->
  exists smtp_user sender_name cc_email,
    environ "smtp_user"%string = Some smtp_user
    /\ environ "sender_name"%string = Some sender_name
    /\ environ "cc_email"%string = Some cc_email
    /\ send_email environ open_file recipient_email temp_file_path
                  bucket_key summary
       = if endswith (lower bucket_key) (lit ".html")
         then html_part <--
                MIMEText
                  (summary_document summary
                     (read_html_content (open_file temp_file_path))) ;;
              Done {| mail_from := sender_name ++ lit " <" ++ smtp_user
                                               ++ lit ">";
                      mail_to := recipient_email;
                      mail_cc := cc_email;
                      mail_subject := lit "Resumen de Documento Procesado";
                      mail_html := html_part |}
         else Failed (UnboundLocalError "html_content"%string).
Proof.
  intros H. unfold smtp_environ_set in H. cbn [forallb] in H.
  unfold send_email, environ_get.
  destruct (environ "smtp_server"%string); [|discriminate].
  destruct (environ "smtp_port"%string); [|discriminate].
  destruct (environ "smtp_user"%string) as [smtp_user|]; [|discriminate].
  destruct (environ "smtp_password"%string); [|discriminate].
  destruct (environ "sender_name"%string) as [sender_name|]; [|discriminate].
  destruct (environ "cc_email"%string) as [cc_email|]; [|discriminate].
  exists smtp_user, sender_name, cc_email. cbn [run_bind].
  repeat split. destruct (endswith (lower bucket_key) (lit ".html")); reflexivity.
Qed.



End SendEmail.



Section ReadHtml.
Context {R : PyRuntime}.

Lemma universal_newlines_nonempty s : s <> [] -> universal_newlines s <> [].
Proof.
  destruct s as [|c s]; [congruence|]. intros _. cbn [universal_newlines].
  destruct (c =? 13)%N; discriminate.
Qed.

(** The loop of lines 63-69 on a file that can be opened. *)
Lemma read_with_encodings_bytes content :
  read_with_encodings (Done content) encodings
  = Done
      (Some
         (universal_newlines
            match utf_8_decode content with
            | Some decoded => decoded
            | None =>
                match charmap_decode cp1252_char content with
                | Some decoded => decoded
                | None => latin_1_decode content
                end
            end)).
Proof.
  unfold encodings. cbn [read_with_encodings run_bind codec_decode].
  destruct (utf_8_decode content) eqn:E8; [reflexivity|].
  rewrite (utf_8_sig_decode_none content E8).
  destruct (charmap_decode cp1252_char content); reflexivity.
Qed.

End ReadHtml.

(** X14: [send_email] reads an HTML file as [safe_decode] decodes a payload:
    for a file that can be opened and is not empty, [html_content] is the
    text that [safe_decode] returns for its bytes, with the ends of lines
    made line feeds; for a file that cannot be opened it is the empty
    string. *)
Theorem read_html_content_is_safe_decode :
  forall (R : PyRuntime),
    (forall content : pybytes,
        content <> [] ->
        exists decoded,
          safe_decode (Some content) encodings = Returned decoded
          /\ read_html_content (Done content) = universal_newlines decoded)
    /\ (forall e : run_exn, read_html_content (Failed e) = []).
Proof.
  intros R. split.
  - intros content Hne.
    eexists. split; [apply safe_decode_encodings|].
    unfold read_html_content. rewrite read_with_encodings_bytes.
    cbn [run_bind].
    match goal with
    | |- context [universal_newlines ?d] =>
        assert (Hd : universal_newlines d <> [])
    end.
    { apply universal_newlines_nonempty. intros Hd.
      apply Hne. apply (safe_decode_empty_payload R content).
      rewrite safe_decode_encodings. now rewrite Hd. }
    match goal with
    | |- context [universal_newlines ?d] =>
        destruct (universal_newlines d) as [|c t]; [congruence|reflexivity]
    end.
  - intros e. reflexivity.
Qed.

Section Refusal.
Context {R : PyRuntime}.

Lemma ascii_lower_is_dot c : ascii_lower c = 46%N -> c = 46%N.
Proof.
  intros H. apply N.eqb_eq. rewrite <- ascii_lower_dot. now apply N.eqb_eq.
Qed.

Lemma is_ascii_text_app a b :
  is_ascii_text (a ++ b) = is_ascii_text a && is_ascii_text b.
Proof. apply forallb_app. Qed.

Lemma endswith_split s suffix :
  endswith s suffix = true -> exists prefix, s = prefix ++ suffix.
Proof.
  unfold endswith. intros H. apply startswith_split in H.
  exists (rev (skipn (List.length (rev suffix)) (rev s))).
  apply (f_equal (@rev N)) in H.
  now rewrite rev_involutive, rev_app_distr, rev_involutive in H.
Qed.

(** An ASCII key whose lower case ends with [.html] has an allowed
    extension. *)
Lemma html_key_allowed key :
  is_ascii_text key = true ->
  endswith (lower key) (lit ".html") = true ->
  extension_allowed (extension_of key) = true.
Proof.
  intros Hascii Hend. rewrite (lower_ascii key Hascii) in Hend.
  destruct (endswith_split _ _ Hend) as (p & Hp).
  apply map_eq_app in Hp as (a & b & -> & Ha & Hb).
  destruct b as [|d ext]; [discriminate|].
  cbn [map] in Hb. injection Hb as Hd Hext.
  apply ascii_lower_is_dot in Hd. subst d.
  rewrite is_ascii_text_app in Hascii.
  apply andb_true_iff in Hascii as [_ Hext_ascii].
  cbn [is_ascii_text forallb] in Hext_ascii.
  apply andb_true_iff in Hext_ascii as [_ Hext_ascii].
  apply (extension_allowed_any_case R a ext Hext_ascii).
  rewrite Hext. do 2 right. now left.
Qed.

End Refusal.

(** X15: the refusal of a file is never mailed. For an ASCII key whose
    extension is not allowed, the call of lines 147-152, made with the six
    variables set, raises [UnboundLocalError] in [send_email], so the
    [return] of the answer 400 at line 153 is not reached. *)
Theorem refused_file_raises :
  forall (R : PyRuntime) (environ : string -> option pystr)
         (open_file : option pystr -> run pybytes)
         (recipient_email file_key_original error_message : pystr),
    smtp_environ_set environ = true ->
    is_ascii_text file_key_original = true ->
    extension_allowed (extension_of file_key_original) = false ->
    send_email environ open_file recipient_email None file_key_original
               error_message
    = Failed (UnboundLocalError "html_content"%string).
Proof.
  intros R environ open_file recipient key message Henv Hascii Hrefused.
  destruct (send_email_with_environ environ open_file recipient None key
              message Henv) as (u & n & c & _ & _ & _ & ->).
  destruct (endswith (lower key) (lit ".html")) eqn:E; [|reflexivity].
  rewrite (html_key_allowed key Hascii E) in Hrefused. discriminate.
Qed.

Lemma refused_file_raises_witness :
  smtp_environ_set sample_environ = true
  /\ is_ascii_text (lit "photo.jpeg") = true
  /\ @extension_allowed ascii_runtime (extension_of (lit "photo.jpeg")) = false
  /\ @send_email ascii_runtime sample_environ (fun _ => Done [])
       (lit "jane@example.com") None (lit "photo.jpeg") (lit "refused")
     = Failed (UnboundLocalError "html_content"%string).
Proof.
  split; [reflexivity|]. split; [reflexivity|]. split; [reflexivity|].
  apply (refused_file_raises ascii_runtime sample_environ (fun _ => Done [])
           (lit "jane@example.com") (lit "photo.jpeg") (lit "refused"));
    reflexivity.
Defined.
